(** * Form validation and submission pipeline

    A shallow embedding of [src/js/utils/validator.js] (the rule registry,
    [validateField], [validateForm], [extractFormData], [addRule]) and of
    [src/js/components/Form.js] ([parseRuleString], [parseValidationRules],
    [validateForm], [handleSubmit], [setSubmitState]), followed by the
    properties of the specification.

    Conventions of the embedding:
    - a JavaScript string is the sequence of its UTF-16 code units; the
      embedding covers code units below 256, one [ascii] each;
    - a JavaScript number is an IEEE 754 binary64 value ([spec_float] with
      precision 53 and maximal exponent 1024); string-to-number conversion
      rounds the decimal value to the nearest double, ties to even;
    - values are [undefined], [null], booleans, numbers, strings, arrays and
      plain objects; values with an identity (arrays, objects) compared with
      [===] are taken to be distinct objects;
    - an object used as a dictionary is a [gmap] over its own properties
      (names inherited from [Object.prototype] are outside the embedding);
      [Object.keys] enumerates it in the order of [map_to_list];
    - a call that can throw returns a [result];
    - the document and the listeners around the controller are inputs: what
      [new FormData(form)] yields where the code builds it, and what the
      listeners of the two custom events do; the writes of the controller to
      the document, the events it dispatches and its console output are
      recorded in order. *)

From Stdlib Require Import ZArith String Ascii List Lia.
From Stdlib Require Import Floats.SpecFloat.
From stdpp Require Import gmap strings list.

#[local] Set Warnings "-register-all".
#[local] Open Scope Z_scope.

(** ** Exceptions *)

Inductive exn : Type :=
| TypeError
| DOMException.

Inductive result (A : Type) : Type :=
| Ok (a : A)
| Throw (e : exn).
Arguments Ok {A} a.
Arguments Throw {A} e.

#[export] Instance result_ret : MRet result := fun A a => Ok a.
#[export] Instance result_bind : MBind result := fun A B f m =>
  match m with
  | Ok a => f a
  | Throw e => Throw e
  end.

(** [for (const x of xs) { acc = body acc x }] with exceptions *)
Fixpoint forOf {A S : Type} (body : S -> A -> result S) (xs : list A) (acc : S)
  : result S :=
  match xs with
  | [] => Ok acc
  | x :: xs' => acc' ← body acc x; forOf body xs' acc'
  end.

(** ** Strings *)

Module JSString.

(** WhiteSpace and LineTerminator code units: TAB, LF, VT, FF, CR, SP, NBSP *)
Definition isWhiteSpace (c : ascii) : bool :=
  let n := N_of_ascii c in
  ((9 <=? n) && (n <=? 13) || (n =? 32) || (n =? 160))%N.

Fixpoint trimStart (s : string) : string :=
  match s with
  | String c s' => if isWhiteSpace c then trimStart s' else s
  | EmptyString => EmptyString
  end.

Fixpoint trimEnd (s : string) : string :=
  match s with
  | String c s' =>
      match trimEnd s' with
      | EmptyString => if isWhiteSpace c then EmptyString else String c EmptyString
      | t => String c t
      end
  | EmptyString => EmptyString
  end.

(** [s.trim()] *)
Definition trim (s : string) : string := trimEnd (trimStart s).

(** [s.split(sep)] for a separator of one code unit *)
Fixpoint split (sep : ascii) (s : string) : list string :=
  match s with
  | EmptyString => [EmptyString]
  | String c s' =>
      if Ascii.eqb c sep then EmptyString :: split sep s'
      else match split sep s' with
           | t :: ts => String c t :: ts
           | [] => [String c EmptyString]
           end
  end.

(** [s.includes(sep)] for a separator of one code unit *)
Fixpoint includes (sep : ascii) (s : string) : bool :=
  match s with
  | EmptyString => false
  | String c s' => Ascii.eqb c sep || includes sep s'
  end.

Fixpoint all (p : ascii -> bool) (s : string) : bool :=
  match s with
  | EmptyString => true
  | String c s' => p c && all p s'
  end.

Fixpoint filter (p : ascii -> bool) (s : string) : string :=
  match s with
  | EmptyString => EmptyString
  | String c s' => if p c then String c (filter p s') else filter p s'
  end.

Fixpoint join (sep : string) (parts : list string) : string :=
  match parts with
  | [] => EmptyString
  | [p] => p
  | p :: ps => p +:+ sep +:+ join sep ps
  end.

End JSString.

(** ** Numbers *)

Module JSNumber.

Definition number : Type := spec_float.
Definition prec : Z := 53.
Definition emax : Z := 1024.

Definition NaN : number := S754_nan.
Definition Infinity (neg : bool) : number := S754_infinity neg.
Definition zero (neg : bool) : number := S754_zero neg.

(** the double nearest to [m * 10^e], for [m >= 0] *)
Definition ofDecimal (neg : bool) (m : Z) (e : Z) : number :=
  match m with
  | Zpos p =>
      if 0 <=? e then binary_round prec emax neg (p * Z.to_pos (10 ^ e)) 0
      else
        let '(q, e', l) := SFdiv_core_binary prec emax (Zpos p) 0 (10 ^ (- e)) 0 in
        binary_round_aux prec emax neg q e' l
  | _ => S754_zero neg
  end.

Definition ofZ (z : Z) : number := ofDecimal (z <? 0) (Z.abs z) 0.

(** [isNaN(x)] on a number *)
Definition isNaN (x : number) : bool :=
  match x with
  | S754_nan => true
  | _ => false
  end.

(** [Number.isInteger(x)] *)
Definition isInteger (x : number) : bool :=
  match x with
  | S754_zero _ => true
  | S754_finite _ m e => (0 <=? e) || (Zpos m mod 2 ^ (- e) =? 0)
  | _ => false
  end.

(** IsLessThan on numbers; [None] is the undefined of a NaN operand *)
Definition lessThan (x y : number) : option bool :=
  match SFcompare x y with
  | Some Lt => Some true
  | Some _ => Some false
  | None => None
  end.

(** [x >= y]: IsLessThan(x, y) is neither true nor undefined *)
Definition ge (x y : number) : bool :=
  match lessThan x y with
  | Some false => true
  | _ => false
  end.

(** [x <= y]: IsLessThan(y, x) is neither true nor undefined *)
Definition le (x y : number) : bool :=
  match lessThan y x with
  | Some false => true
  | _ => false
  end.

(** [x === y] on numbers *)
Definition equal (x y : number) : bool := SFeqb x y.

(** *** StringToNumber *)

Definition digitValue (radix : N) (c : ascii) : option Z :=
  let n := N_of_ascii c in
  let d := if ((48 <=? n) && (n <=? 57))%N then Some (n - 48)%N
           else if ((97 <=? n) && (n <=? 122))%N then Some (n - 87)%N
           else if ((65 <=? n) && (n <=? 90))%N then Some (n - 55)%N
           else None in
  match d with
  | Some v => if (v <? radix)%N then Some (Z.of_N v) else None
  | None => None
  end.

(** the longest prefix of digits: its value on top of [acc], the number of
    digits read on top of [count], and the rest of the string *)
Fixpoint readDigits (radix : N) (s : string) (acc : Z) (count : Z) : Z * Z * string :=
  match s with
  | String c s' =>
      match digitValue radix c with
      | Some d => readDigits radix s' (acc * Z.of_N radix + d) (count + 1)
      | None => (acc, count, s)
      end
  | EmptyString => (acc, count, s)
  end.

Definition readSign (s : string) : bool * string :=
  match s with
  | String "-" s' => (true, s')
  | String "+" s' => (false, s')
  | _ => (false, s)
  end.

(** the prefixes [0x], [0o], [0b] of a NonDecimalIntegerLiteral *)
Definition nonDecimalRadix (s : string) : option (N * string) :=
  match s with
  | String "0" (String c s') =>
      if (Ascii.eqb c "x" || Ascii.eqb c "X")%bool then Some (16%N, s')
      else if (Ascii.eqb c "o" || Ascii.eqb c "O")%bool then Some (8%N, s')
      else if (Ascii.eqb c "b" || Ascii.eqb c "B")%bool then Some (2%N, s')
      else None
  | _ => None
  end.

(** ExponentPart, or nothing, up to the end of the string *)
Definition parseExponent (s : string) : option Z :=
  match s with
  | EmptyString => Some 0
  | String c s' =>
      if (Ascii.eqb c "e" || Ascii.eqb c "E")%bool then
        let '(neg, s1) := readSign s' in
        match readDigits 10 s1 0 0 with
        | (v, n, EmptyString) => if 0 <? n then Some (if neg then - v else v) else None
        | _ => None
        end
      else None
  end.

(** StrDecimalLiteral *)
Definition parseDecimal (s : string) : number :=
  let '(neg, s1) := readSign s in
  if String.eqb s1 "Infinity" then Infinity neg
  else
    let '(ip, ni, s2) := readDigits 10 s1 0 0 in
    let '(m, nf, s3) :=
      match s2 with
      | String "." s2' => readDigits 10 s2' ip 0
      | _ => (ip, 0, s2)
      end in
    if ni + nf =? 0 then NaN
    else match parseExponent s3 with
         | Some e => ofDecimal neg m (e - nf)
         | None => NaN
         end.

(** [Number(s)] for a string [s] *)
Definition ofString (s : string) : number :=
  match JSString.trim s with
  | EmptyString => zero false
  | t =>
      match nonDecimalRadix t with
      | Some (radix, ds) =>
          match readDigits radix ds 0 0 with
          | (v, n, EmptyString) => if 0 <? n then ofDecimal false v 0 else NaN
          | _ => NaN
          end
      | None => parseDecimal t
      end
  end.

(** *** Number::toString, radix 10 *)

Definition digitChar (d : Z) : ascii := ascii_of_N (48 + Z.to_N d).

Fixpoint decimalDigits (fuel : nat) (z : Z) (acc : string) : string :=
  match fuel with
  | O => acc
  | S fuel' =>
      if z <? 10 then String (digitChar z) acc
      else decimalDigits fuel' (z / 10) (String (digitChar (z mod 10)) acc)
  end.

Definition integerToString (z : Z) : string :=
  let d := decimalDigits (S (Z.to_nat (Z.log2 (Z.abs z)))) (Z.abs z) EmptyString in
  if z <? 0 then String "-" d else d.

Definition sameValue (x y : number) : bool :=
  match x, y with
  | S754_finite sx mx ex, S754_finite sy my ey =>
      Bool.eqb sx sy && Pos.eqb mx my && (ex =? ey)
  | S754_zero sx, S754_zero sy => Bool.eqb sx sy
  | S754_infinity sx, S754_infinity sy => Bool.eqb sx sy
  | _, _ => false
  end.

(** floor of [(num / den) / 10^q] *)
Definition scaledFloor (num den q : Z) : Z :=
  if 0 <=? q then num / (den * 10 ^ q) else (num * 10 ^ (- q)) / den.

(** [(num / den) / 10^q] against [c + 1/2] *)
Definition compareHalf (num den q c : Z) : comparison :=
  if 0 <=? q then (2 * num ?= (2 * c + 1) * (den * 10 ^ q))
  else (2 * (num * 10 ^ (- q)) ?= (2 * c + 1) * den).

(** the [n] with [10^(n-1) <= num / den < 10^n], searched downwards *)
Fixpoint magnitude (fuel : nat) (num den n : Z) : Z :=
  match fuel with
  | O => n
  | S fuel' =>
      if 0 <? scaledFloor num den (n - 1) then n
      else magnitude fuel' num den (n - 1)
  end.

(** the shortest digits [s] (at least [k] of them) for which
    [s * 10^(n-k)] reads back as [x], and the resulting [n] *)
Fixpoint shortest (fuel : nat) (x : number) (num den n k : Z) : Z * Z :=
  let q := n - k in
  let lo := scaledFloor num den q in
  let hi := lo + 1 in
  let okLo := sameValue (ofDecimal false lo q) x in
  let okHi := sameValue (ofDecimal false hi q) x in
  let pick :=
    match compareHalf num den q lo with
    | Lt => if okLo then Some lo else if okHi then Some hi else None
    | Gt => if okHi then Some hi else if okLo then Some lo else None
    | Eq => if okLo && okHi then Some (if Z.even lo then lo else hi)
            else if okLo then Some lo else if okHi then Some hi else None
    end in
  match pick, fuel with
  | Some s, _ => if s =? 10 ^ k then (1, n + 1) else (s, n)
  | None, S fuel' => shortest fuel' x num den n (k + 1)
  | None, O => (lo, n)
  end.

Fixpoint zeros (n : nat) : string :=
  match n with
  | O => EmptyString
  | S n' => String "0" (zeros n')
  end.

Definition formatDigits (ds : string) (n : Z) : string :=
  let k := Z.of_nat (String.length ds) in
  if (k <=? n) && (n <=? 21) then ds +:+ zeros (Z.to_nat (n - k))
  else if (0 <? n) && (n <=? 21) then
    String.substring 0 (Z.to_nat n) ds +:+ "." +:+
    String.substring (Z.to_nat n) (String.length ds - Z.to_nat n) ds
  else if (-6 <? n) && (n <=? 0) then
    "0." +:+ zeros (Z.to_nat (- n)) +:+ ds
  else
    let ex := (if 0 <=? n - 1 then "+" else "-") +:+ integerToString (Z.abs (n - 1)) in
    match ds with
    | String d EmptyString => String d ("e" +:+ ex)
    | String d rest => String d ("." +:+ rest +:+ "e" +:+ ex)
    | EmptyString => EmptyString
    end.

Definition toString (x : number) : string :=
  match x with
  | S754_nan => "NaN"
  | S754_zero _ => "0"
  | S754_infinity neg => if neg then "-Infinity" else "Infinity"
  | S754_finite neg m e =>
      let num := if 0 <=? e then Zpos m * 2 ^ e else Zpos m in
      let den := if 0 <=? e then 1 else 2 ^ (- e) in
      let bits := Z.log2 num - Z.log2 den + 1 in
      let n := magnitude 4 num den (bits * 30103 / 100000 + 2) in
      let '(s, n') := shortest 17 (S754_finite false m e) num den n 1 in
      let body := formatDigits (integerToString s) n' in
      if neg then String "-" body else body
  end.

End JSNumber.

(** ** Values *)

Import JSNumber.

Inductive Value : Type :=
| VUndef
| VNull
| VBool (b : bool)
| VNum (n : number)
| VStr (s : string)
| VArr (elements : list Value)
| VObj (properties : gmap string Value).

(** A property of the registry objects, or the outcome of a call: a value
    or a function.  A function takes its argument list and returns or
    throws; what it returns may again be a function (a curried rule). *)
Inductive member : Type :=
| Val (v : Value)
| Fun (f : list Value -> result member).

(** ToString *)
Fixpoint ToString (v : Value) : string :=
  match v with
  | VUndef => "undefined"
  | VNull => "null"
  | VBool b => if b then "true" else "false"
  | VNum n => toString n
  | VStr s => s
  | VArr l =>
      (* Array.prototype.join: undefined and null elements print as empty *)
      JSString.join ","
        ((fix elements (l : list Value) : list string :=
            match l with
            | [] => []
            | VUndef :: l' => EmptyString :: elements l'
            | VNull :: l' => EmptyString :: elements l'
            | x :: l' => ToString x :: elements l'
            end) l)
  | VObj _ => "[object Object]"
  end.

(** ToNumber, which is also [Number(v)] *)
Definition ToNumber (v : Value) : number :=
  match v with
  | VUndef => NaN
  | VNull => zero false
  | VBool b => if b then ofZ 1 else zero false
  | VNum n => n
  | VStr s => ofString s
  | VArr _ | VObj _ => ofString (ToString v)
  end.

(** ToBoolean *)
Definition ToBoolean (v : Value) : bool :=
  match v with
  | VUndef | VNull => false
  | VBool b => b
  | VNum (S754_zero _) | VNum S754_nan => false
  | VNum _ => true
  | VStr s => negb (String.eqb s "")
  | VArr _ | VObj _ => true
  end.

Definition truthy (m : member) : bool :=
  match m with
  | Val v => ToBoolean v
  | Fun _ => true
  end.

(** [typeof m === 'function'] *)
Definition isFunction (m : member) : bool :=
  match m with
  | Fun _ => true
  | Val _ => false
  end.


Definition strictEquals (v w : Value) : bool :=
  match v, w with
  | VUndef, VUndef => true
  | VNull, VNull => true
  | VBool a, VBool b => Bool.eqb a b
  | VNum a, VNum b => JSNumber.equal a b
  | VStr a, VStr b => String.eqb a b
  | _, _ => false
  end.

(** The property names that every plain object inherits from
    [Object.prototype].  A dictionary of the embedding holds the own
    properties of an object; for these names the code reads the inherited
    member where the object has no own property, which no [Value] stands
    for. *)
Definition Object_prototype : list string :=
  ["constructor"; "__defineGetter__"; "__defineSetter__"; "hasOwnProperty";
   "__lookupGetter__"; "__lookupSetter__"; "isPrototypeOf";
   "propertyIsEnumerable"; "toString"; "valueOf"; "__proto__"; "toLocaleString"].

Definition inherited (k : string) : bool :=
  existsb (String.eqb k) Object_prototype.

(** [o[k]] on a dictionary, for a name that is not inherited: a missing
    property reads as undefined *)
Definition prop (o : gmap string member) (k : string) : member :=
  default (Val VUndef) (o !! k).

Definition propValue (o : gmap string Value) (k : string) : Value :=
  default VUndef (o !! k).

(** [f(...args)]: calling what is not a function throws a TypeError *)
Definition call (f : member) (args : list Value) : result member :=
  match f with
  | Fun g => g args
  | Val _ => Throw TypeError
  end.

(** the [i]-th formal parameter of a function called with [args] *)
Definition arg (i : nat) (args : list Value) : Value := nth i args VUndef.

(** ** RuleSpec *)

(** An element of a field's rule list: a bare rule name, or an object
    [{rule, params, message}] whose [params] and [message] may be absent. *)
Inductive RuleSpec : Type :=
| RuleName (name : string)
| RuleObject (rule : string) (params : option (list Value)) (message : option string).

Module FieldResult.
Record t : Type := mk { isValid : bool; errors : list member }.
End FieldResult.

Module FormResult.
Record t : Type := mk {
  isValid : bool;
  errors : gmap string (list member);
  results : gmap string FieldResult.t
}.
End FormResult.

(** ** src/js/utils/validator.js *)

(** The state of the [validator] object: its two registries. *)
Record Registry : Type := {
  rules : gmap string member;
  messages : gmap string member
}.

Module Regex.

Definition isDigit (c : ascii) : bool :=
  let n := N_of_ascii c in ((48 <=? n) && (n <=? 57))%N.
Definition isLetter (c : ascii) : bool :=
  let n := N_of_ascii c in
  ((65 <=? n) && (n <=? 90) || (97 <=? n) && (n <=? 122))%N.
Definition nonEmpty (s : string) : bool := negb (String.eqb s "").

Fixpoint dropLast (s : string) : string :=
  match s with
  | EmptyString => EmptyString
  | String c EmptyString => EmptyString
  | String c s' => String c (dropLast s')
  end.

(** [/^[^\s@]+@[^\s@]+\.[^\s@]+$/.test(s)]: no white space, one [@] with
    something before it, and after it a dot that is neither first nor last *)
Definition email (s : string) : bool :=
  match JSString.split "@" s with
  | [a; d] =>
      nonEmpty a
      && JSString.all (fun c => negb (JSString.isWhiteSpace c)) s
      && match d with
         | String _ d' => JSString.includes "." (dropLast d')
         | EmptyString => false
         end
  | _ => false
  end.

(** [s.replace(/[\s\-\(\)]/g, '')] *)
Definition stripPhone (s : string) : string :=
  JSString.filter
    (fun c => negb (JSString.isWhiteSpace c || Ascii.eqb c "-"
                    || Ascii.eqb c "(" || Ascii.eqb c ")"))
    s.

(** [/^[\+]?[1-9][\d]{0,15}$/.test(s)] *)
Definition phone (s : string) : bool :=
  let s1 := match s with
            | String "+" r => r
            | _ => s
            end in
  match s1 with
  | String c r =>
      isDigit c && negb (Ascii.eqb c "0") && JSString.all isDigit r
      && (String.length r <=? 15)%nat
  | EmptyString => false
  end.

(** [/^[a-zA-Z]+$/.test(s)] *)
Definition alpha (s : string) : bool :=
  nonEmpty s && JSString.all isLetter s.

(** [/^[a-zA-Z0-9]+$/.test(s)] *)
Definition alphanumeric (s : string) : bool :=
  nonEmpty s && JSString.all (fun c => isLetter c || isDigit c) s.

End Regex.

Module validator.

(** The predicates of [validator.rules].  Each is a JavaScript function:
    it reads its formal parameters from the argument list it is called
    with, whatever the call site passes. *)
Module Rules.

Definition required : member :=
  Fun (fun args =>
    let value := arg 0 args in
    let trimmed := match value with
                   | VStr s => VStr (JSString.trim s)
                   | _ => value
                   end in
    Ok (Val (VBool (negb (strictEquals trimmed (VStr ""))
                    && negb (strictEquals trimmed VNull)
                    && negb (strictEquals trimmed VUndef))))).

Definition email : member :=
  Fun (fun args =>
    let value := arg 0 args in
    Ok (Val (VBool (Regex.email (ToString value))))).

Definition minLength : member :=
  Fun (fun args =>
    let min := arg 0 args in
    Ok (Fun (fun args' =>
      let value := arg 0 args' in
      Ok (Val (VBool
        match value with
        | VStr s => JSNumber.ge (ofZ (Z.of_nat (String.length s))) (ToNumber min)
        | _ => false
        end))))).

Definition maxLength : member :=
  Fun (fun args =>
    let max := arg 0 args in
    Ok (Fun (fun args' =>
      let value := arg 0 args' in
      Ok (Val (VBool
        match value with
        | VStr s => JSNumber.le (ofZ (Z.of_nat (String.length s))) (ToNumber max)
        | _ => false
        end))))).

Definition min : member :=
  Fun (fun args =>
    let minValue := arg 0 args in
    Ok (Fun (fun args' =>
      let value := arg 0 args' in
      let num := ToNumber value in
      Ok (Val (VBool (negb (isNaN num) && JSNumber.ge num (ToNumber minValue))))))).

Definition max : member :=
  Fun (fun args =>
    let maxValue := arg 0 args in
    Ok (Fun (fun args' =>
      let value := arg 0 args' in
      let num := ToNumber value in
      Ok (Val (VBool (negb (isNaN num) && JSNumber.le num (ToNumber maxValue))))))).

(** [regex.test(value)]: no value of the embedding is a RegExp, and on any
    other receiver [test] is not callable *)
Definition pattern : member :=
  Fun (fun args =>
    let regex := arg 0 args in
    Ok (Fun (fun args' => Throw TypeError))).

Section WithURL.
(** whether [new URL(s)] returns for the string [s] *)
Variable URL_parses : string -> bool.

Definition url : member :=
  Fun (fun args =>
    let value := arg 0 args in
    Ok (Val (VBool (URL_parses (ToString value))))).
End WithURL.

Definition phone : member :=
  Fun (fun args =>
    let value := arg 0 args in
    match value with
    | VStr s => Ok (Val (VBool (Regex.phone (Regex.stripPhone s))))
    | _ => Throw TypeError
    end).

Definition number : member :=
  Fun (fun args =>
    let value := arg 0 args in
    if negb (isNaN (ToNumber value)) then
      match value with
      | VStr s => Ok (Val (VBool (negb (String.eqb (JSString.trim s) ""))))
      | _ => Throw TypeError
      end
    else Ok (Val (VBool false))).

Definition integer : member :=
  Fun (fun args =>
    let value := arg 0 args in
    Ok (Val (VBool (isInteger (ToNumber value))))).

Definition alpha : member :=
  Fun (fun args =>
    let value := arg 0 args in
    Ok (Val (VBool (Regex.alpha (ToString value))))).

Definition alphanumeric : member :=
  Fun (fun args =>
    let value := arg 0 args in
    Ok (Val (VBool (Regex.alphanumeric (ToString value))))).

Definition match_ : member :=
  Fun (fun args =>
    let fieldName := arg 0 args in
    Ok (Fun (fun args' =>
      let value := arg 0 args' in
      let formData := arg 1 args' in
      match formData with
      | VObj o => Ok (Val (VBool (strictEquals value (propValue o (ToString fieldName)))))
      | VUndef | VNull => Throw TypeError
      | _ =>
          (* [validateField] always passes an object here *)
          Ok (Val (VBool (strictEquals value VUndef)))
      end))).

End Rules.

(** The entries of [validator.messages]: a string, or a function of the
    rule's parameters. *)
Module Messages.

Definition required : member := Val (VStr "This field is required").
Definition email : member := Val (VStr "Please enter a valid email address").
Definition minLength : member :=
  Fun (fun args =>
    let min := arg 0 args in
    Ok (Val (VStr ("Must be at least " +:+ ToString min +:+ " characters")))).
Definition maxLength : member :=
  Fun (fun args =>
    let max := arg 0 args in
    Ok (Val (VStr ("Must not exceed " +:+ ToString max +:+ " characters")))).
Definition min : member :=
  Fun (fun args =>
    let minValue := arg 0 args in
    Ok (Val (VStr ("Must be at least " +:+ ToString minValue)))).
Definition max : member :=
  Fun (fun args =>
    let maxValue := arg 0 args in
    Ok (Val (VStr ("Must not exceed " +:+ ToString maxValue)))).
Definition pattern : member := Val (VStr "Please enter a valid format").
Definition url : member := Val (VStr "Please enter a valid URL").
Definition phone : member := Val (VStr "Please enter a valid phone number").
Definition number : member := Val (VStr "Please enter a valid number").
Definition integer : member := Val (VStr "Please enter a whole number").
Definition alpha : member := Val (VStr "Only letters are allowed").
Definition alphanumeric : member := Val (VStr "Only letters and numbers are allowed").
Definition match_ : member :=
  Fun (fun args =>
    let fieldName := arg 0 args in
    Ok (Val (VStr ("Must match " +:+ ToString fieldName)))).

End Messages.

(** The registries of the [validator] object as the module exports it. *)
Definition builtin (URL_parses : string -> bool) : Registry :=
  {| rules := list_to_map
       [ ("required", Rules.required); ("email", Rules.email);
         ("minLength", Rules.minLength); ("maxLength", Rules.maxLength);
         ("min", Rules.min); ("max", Rules.max); ("pattern", Rules.pattern);
         ("url", Rules.url URL_parses); ("phone", Rules.phone);
         ("number", Rules.number); ("integer", Rules.integer);
         ("alpha", Rules.alpha); ("alphanumeric", Rules.alphanumeric);
         ("match", Rules.match_) ];
     messages := list_to_map
       [ ("required", Messages.required); ("email", Messages.email);
         ("minLength", Messages.minLength); ("maxLength", Messages.maxLength);
         ("min", Messages.min); ("max", Messages.max); ("pattern", Messages.pattern);
         ("url", Messages.url); ("phone", Messages.phone);
         ("number", Messages.number); ("integer", Messages.integer);
         ("alpha", Messages.alpha); ("alphanumeric", Messages.alphanumeric);
         ("match", Messages.match_) ] |}.


Section Methods.

Variable this : Registry.

(** One turn of the loop of [validateField]: the rule's [isValid] and
    [errorMessage], then the push. *)
Definition ruleOutcome (value : Value) (formData : gmap string Value)
    (rule : RuleSpec) : result (member * member) :=
  match rule with
  | RuleName rule =>
      (* typeof rule === 'string' *)
      isValid ← call (prop (rules this) rule) [value; VObj formData];
      let errorMessage := prop (messages this) rule in
      Ok (isValid, errorMessage)
  | RuleObject ruleName params message =>
      (* typeof rule === 'object' *)
      let ruleParams := default [] params in
      let customMessage := from_option VStr VUndef message in
      if truthy (prop (rules this) ruleName) then
        ruleFunction ← (if (0 <? length ruleParams)%nat
                        then call (prop (rules this) ruleName) ruleParams
                        else Ok (prop (rules this) ruleName));
        isValid ← call ruleFunction [value; VObj formData];
        errorMessage ← (if ToBoolean customMessage then Ok (Val customMessage)
                        else if isFunction (prop (messages this) ruleName)
                             then call (prop (messages this) ruleName) ruleParams
                             else Ok (prop (messages this) ruleName));
        Ok (isValid, errorMessage)
      else Ok (Val (VBool true), Val (VStr ""))
  end.

Definition validateField_body (value : Value) (formData : gmap string Value)
    (errors : list member) (rule : RuleSpec) : result (list member) :=
  '(isValid, errorMessage) ← ruleOutcome value formData rule;
  if negb (truthy isValid) then Ok (errors ++ [errorMessage]) else Ok errors.

(** [validator.validateField(value, rules, formData)] *)
Definition validateField (value : Value) (rules : list RuleSpec)
    (formData : gmap string Value) : result FieldResult.t :=
  errors ← forOf (validateField_body value formData) rules [];
  Ok (FieldResult.mk (length errors =? 0)%nat errors).

(** The callback of the [forEach] of [validateForm], on the three
    variables it assigns. *)
Definition validateForm_body (formData : gmap string Value)
    (validationRules : gmap string (list RuleSpec))
    (acc : FormResult.t) (fieldName : string) : result FormResult.t :=
  let fieldValue :=
    if ToBoolean (propValue formData fieldName) then propValue formData fieldName
    else VStr "" in
  match validationRules !! fieldName with
  | Some fieldRules =>
      result ← validateField fieldValue fieldRules formData;
      let results := <[fieldName := result]> (FormResult.results acc) in
      if negb (FieldResult.isValid result) then
        Ok (FormResult.mk false
              (<[fieldName := FieldResult.errors result]> (FormResult.errors acc))
              results)
      else Ok (FormResult.mk (FormResult.isValid acc) (FormResult.errors acc) results)
  | None => Throw TypeError
  end.

(** [Object.keys(o)] *)
Definition keys {A : Type} (o : gmap string A) : list string := (map_to_list o).*1.

(** [validator.validateForm(formData, validationRules)] *)
Definition validateForm (formData : gmap string Value)
    (validationRules : gmap string (list RuleSpec)) : result FormResult.t :=
  forOf (validateForm_body formData validationRules) (keys validationRules)
    (FormResult.mk true ∅ ∅).

End Methods.

(** [validator.extractFormData(form)], on the entries of [new FormData(form)].
    The dictionary holds the own properties of [data]; [data[key]] is read
    from them, which is what the code reads for every key that is not a name
    of [Object_prototype]. *)
Definition extractFormData_body (data : gmap string Value) (entry : string * Value)
  : gmap string Value :=
  let '(key, value) := entry in
  if ToBoolean (propValue data key) then
    match propValue data key with
    | VArr l => <[key := VArr (l ++ [value])]> data
    | v => <[key := VArr [v; value]]> data
    end
  else <[key := value]> data.

Definition extractFormData (entries : list (string * Value)) : gmap string Value :=
  fold_left extractFormData_body entries ∅.

End validator.

(** ** src/js/components/Form.js *)

Module Form.

(** *** Rule parser *)

(** the callback of the [forEach] of [parseRuleString], on the array it
    pushes to; [[ruleName, params] = rule.split(':')] leaves [params]
    undefined when the split has one part, and [params.split] then throws *)
Definition parseRuleString_body (rules : list RuleSpec) (rule : string)
  : result (list RuleSpec) :=
  if JSString.includes ":" rule then
    match JSString.split ":" rule with
    | ruleName :: params :: _ =>
        let paramArray :=
          map (fun p => let num := ofString p in
                        if isNaN num then VStr p else VNum num)
              (JSString.split "," params) in
        Ok (rules ++ [RuleObject ruleName (Some paramArray) None])
    | _ => Throw TypeError
    end
  else Ok (rules ++ [RuleName rule]).

(** [parseRuleString(ruleString)] *)
Definition parseRuleString (ruleString : string) : result (list RuleSpec) :=
  let ruleParts := JSString.split "|" ruleString in
  forOf parseRuleString_body ruleParts [].


(** *** Submission controller *)

(** what [element.querySelector('[type="submit"]')] finds *)
Record SubmitButton : Type := {
  disabled : bool;
  classList : list string;
  textContent : string;
  dataset_originalText : option string
}.

Inductive CustomEvent : Type :=
| FormSubmit (formData : gmap string Value)   (* 'form:submit' *)
| FormError (error : exn).                    (* 'form:error' *)

(** what the controller does to its surroundings, oldest first *)
Inductive Effect : Type :=
| DisplayErrors (errors : gmap string (list member))
| DispatchEvent (event : CustomEvent)
| ConsoleLog (formData : gmap string Value)
| ConsoleError (error : exn).

(** the controller and the part of the document it writes to *)
Record t : Type := {
  validationRules : gmap string (list RuleSpec);
  isSubmitting : bool;
  submitButton : option SubmitButton;
  effects : list Effect
}.

(** what a listener of the form's custom events may do: call back into
    [handleSubmit], call [preventDefault] on the event, or throw *)
Inductive ListenerAction : Type :=
| CallHandleSubmit
| PreventDefault
| ThrowError.

(** the surroundings of one [handleSubmit]: the entries that
    [new FormData(form)] yields, or what it throws, at each of the two
    places that build it, and the listeners of the two custom events *)
Record Host : Type := {
  entriesAtValidation : result (list (string * Value));
  entriesAtSubmit : result (list (string * Value));
  submitListeners : list (list ListenerAction);
  errorListeners : list (list ListenerAction)
}.

Definition setIsSubmitting (b : bool) (this : t) : t :=
  {| validationRules := validationRules this; isSubmitting := b;
     submitButton := submitButton this; effects := effects this |}.

Definition perform (e : Effect) (this : t) : t :=
  {| validationRules := validationRules this; isSubmitting := isSubmitting this;
     submitButton := submitButton this; effects := effects this ++ [e] |}.

(** [classList.add(...tokens)] and [classList.remove(...tokens)] *)
Definition classList_add (tokens classes : list string) : list string :=
  fold_left (fun cs tok => if existsb (String.eqb tok) cs then cs else cs ++ [tok])
            tokens classes.
Definition classList_remove (tokens classes : list string) : list string :=
  List.filter (fun c => negb (existsb (String.eqb c) tokens)) classes.

(** [setSubmitState(isSubmitting)] *)
Definition setSubmitState (isSubmitting : bool) (this : t) : t :=
  match submitButton this with
  | Some submitButton =>
      let submitButton' :=
        if isSubmitting then
          let originalText := textContent submitButton in
          {| disabled := isSubmitting;
             classList := classList_add ["opacity-50"; "cursor-not-allowed"]
                            (classList submitButton);
             dataset_originalText := Some originalText;
             textContent := "Submitting..." |}
        else
          {| disabled := isSubmitting;
             classList := classList_remove ["opacity-50"; "cursor-not-allowed"]
                            (classList submitButton);
             dataset_originalText := dataset_originalText submitButton;
             textContent :=
               if ToBoolean (from_option VStr VUndef (dataset_originalText submitButton))
               then default "" (dataset_originalText submitButton)
               else textContent submitButton |} in
      {| validationRules := validationRules this;
         isSubmitting := Form.isSubmitting this;
         submitButton := Some submitButton';
         effects := effects this |}
  | None => this
  end.

(** one listener: a [handleSubmit] it calls runs to its first suspension,
    which is its end; what a listener throws is reported by the host and
    does not reach the dispatcher *)
Fixpoint runListener (reenter : t -> option t) (cancelable : bool)
    (actions : list ListenerAction) (this : t) (canceled : bool)
  : option (t * bool) :=
  match actions with
  | [] => Some (this, canceled)
  | CallHandleSubmit :: rest =>
      this' ← reenter this; runListener reenter cancelable rest this' canceled
  | PreventDefault :: rest =>
      runListener reenter cancelable rest this (canceled || cancelable)
  | ThrowError :: _ => Some (this, canceled)
  end.

(** [element.dispatchEvent(event)]: the state after the listeners have
    run, and [event.defaultPrevented] *)
Fixpoint dispatchEvent (reenter : t -> option t) (cancelable : bool)
    (listeners : list (list ListenerAction)) (this : t) (canceled : bool)
  : option (t * bool) :=
  match listeners with
  | [] => Some (this, canceled)
  | l :: ls =>
      '(this', canceled') ← runListener reenter cancelable l this canceled;
      dispatchEvent reenter cancelable ls this' canceled'
  end.

(** how the promise of an [async] method settles *)
Inductive Settled : Type :=
| Fulfilled
| Rejected (error : exn).

Section Controller.

Variable registry : Registry.
Variable host : Host.

(** [validateForm()] of the component *)
Definition validateForm (this : t) : result (t * FormResult.t) :=
  entries ← entriesAtValidation host;
  let formData := validator.extractFormData entries in
  result ← validator.validateForm registry formData (validationRules this);
  Ok (perform (DisplayErrors (FormResult.errors result)) this, result).

(** the [try] block of [handleSubmit]: the state it leaves and whether
    it threw; a [CustomEvent] built without [cancelable] is not *)
Definition handleSubmit_try (reenter : t -> option t) (this : t)
  : option (t * result unit) :=
  match entriesAtSubmit host with
  | Throw error => Some (this, Throw error)
  | Ok entries =>
      let formData := validator.extractFormData entries in
      let submitEvent := FormSubmit formData in
      '(this1, defaultPrevented) ←
        dispatchEvent reenter false (submitListeners host)
          (perform (DispatchEvent submitEvent) this) false;
      if negb defaultPrevented
      then Some (perform (ConsoleLog formData) this1, Ok ())
      else Some (this1, Ok ())
  end.

(** the [catch] block *)
Definition handleSubmit_catch (reenter : t -> option t) (error : exn) (this : t)
  : option t :=
  let this1 := perform (ConsoleError error) this in
  '(this2, _) ←
    dispatchEvent reenter false (errorListeners host)
      (perform (DispatchEvent (FormError error)) this1) false;
  Some this2.

(** the [finally] block *)
Definition handleSubmit_finally (this : t) : t :=
  setSubmitState false (setIsSubmitting false this).

(** [handleSubmit()].  The method has no [await]: a call runs to its end
    before it returns its promise.  [fuel] bounds the depth of the calls
    that listeners make back into it. *)
Fixpoint handleSubmit (fuel : nat) (this : t) : option (t * Settled) :=
  match fuel with
  | O => None
  | S fuel' =>
      if isSubmitting this then Some (this, Fulfilled)
      else
        match validateForm this with
        | Throw error => Some (this, Rejected error)
        | Ok (this1, validation) =>
            if negb (FormResult.isValid validation) then Some (this1, Fulfilled)
            else
              let reenter := fun f => fst <$> handleSubmit fuel' f in
              let this2 := setSubmitState true (setIsSubmitting true this1) in
              '(this3, tried) ← handleSubmit_try reenter this2;
              this4 ← match tried with
                      | Ok _ => Some this3
                      | Throw error => handleSubmit_catch reenter error this3
                      end;
              Some (handleSubmit_finally this4, Fulfilled)
        end
  end.

End Controller.

(** the number of 'form:submit' events dispatched so far *)
Definition submitEmissions (this : t) : nat :=
  length (List.filter (fun e => match e with
                                | DispatchEvent (FormSubmit _) => true
                                | _ => false
                                end) (effects this)).

Section RealTime.

Variable registry : Registry.

(** [validateField(field)] of the component, on the name and the value of
    the field, on the entries that [new FormData(form)] yields or what it
    throws, and on what [displayFieldErrors(field, errors)] does in the
    document: it returns, or it throws the SyntaxError of [querySelector]
    when the name of the field does not make a valid selector.  A name that
    [Object.prototype] defines reads as truthy rules that are not iterable. *)
Definition validateField (this : t) (entries : result (list (string * Value)))
    (displayFieldErrors : list member -> result unit)
    (fieldName fieldValue : string) : result bool :=
  match validationRules this !! fieldName with
  | None =>
      if inherited fieldName then _ ← entries; Throw TypeError
      else Ok true
  | Some fieldRules =>
      es ← entries;
      let formData := validator.extractFormData es in
      result ← validator.validateField registry (VStr fieldValue) fieldRules formData;
      _ ← displayFieldErrors (FieldResult.errors result);
      Ok (FieldResult.isValid result)
  end.

End RealTime.

End Form.

(** ** The specification's reading of the operations *)

(** "Each parameter token is coerced to a number when it parses as numeric,
    otherwise kept as a string." *)
Inductive coerced : string -> Value -> Prop :=
| coerced_number (p : string) :
    isNaN (ofString p) = false -> coerced p (VNum (ofString p))
| coerced_string (p : string) :
    isNaN (ofString p) = true -> coerced p (VStr p).

(** A token [name] yields the bare name, whatever the name; a token
    [name:param1,param2] yields the name and its coerced parameters. *)
Inductive parsedFrom : string -> RuleSpec -> Prop :=
| parsed_bare (token : string) :
    JSString.includes ":" token = false ->
    parsedFrom token (RuleName token)
| parsed_parametric (token name paramText : string) (rest : list string)
    (params : list Value) :
    JSString.split ":" token = name :: paramText :: rest ->
    Forall2 coerced (JSString.split "," paramText) params ->
    parsedFrom token (RuleObject name (Some params) None).

(** the parameter array that [parseRuleString] builds from the text
    between the first and the second colon *)
Definition paramArrayOf (paramText : string) : list Value :=
  map (fun p => if isNaN (ofString p) then VStr p else VNum (ofString p))
      (JSString.split "," paramText).

(** "defaults a missing snapshot value to empty string": what the form
    validator hands to the field validator for a field *)
Definition snapshotValue (formData : gmap string Value) (fieldName : string) : Value :=
  match formData !! fieldName with
  | Some v => if ToBoolean v then v else VStr ""
  | None => VStr ""
  end.

Section FieldValidatorSpec.

Variable R : Registry.

(** "a RuleSpec with parameters invokes the registry's currying function
    with those parameters to obtain the predicate, then calls it with
    (value, formSnapshot)"; a name-with-parameters rule whose name the
    registry does not know is inert.  A rule fails when what its predicate
    returns is falsy. *)
Definition rulePasses (value : Value) (formData : gmap string Value)
    (rule : RuleSpec) : result bool :=
  match rule with
  | RuleName name =>
      verdict ← call (prop (rules R) name) [value; VObj formData];
      Ok (truthy verdict)
  | RuleObject name params _ =>
      match rules R !! name with
      | Some entry =>
          if truthy entry then
            predicate ← match default [] params with
                        | [] => Ok entry
                        | ps => call entry ps
                        end;
            verdict ← call predicate [value; VObj formData];
            Ok (truthy verdict)
          else Ok true
      | None => Ok true
      end
  end.

(** "the registry's message, invoking the message function with the same
    parameters if the message is parametric" *)
Definition registryMessage (name : string) (params : list Value) : result member :=
  match messages R !! name with
  | Some (Fun f) => f params
  | Some (Val v) => Ok (Val v)
  | None => Ok (Val VUndef)
  end.

(** The resolved message as the claim words it: "the override message when
    the RuleSpec carries one, else the registry's message, invoking a
    parametric message function with the rule's parameters".  A bare name
    carries neither an override nor parameters. *)
Definition claimedMessage (rule : RuleSpec) : result member :=
  match rule with
  | RuleName name => registryMessage name []
  | RuleObject name params (Some m) => Ok (Val (VStr m))
  | RuleObject name params None => registryMessage name (default [] params)
  end.

(** The resolved message of the amended claim: as [claimedMessage], with the
    override taken only when it is not the empty string. *)
Definition amendedMessage (rule : RuleSpec) : result member :=
  match rule with
  | RuleName name => registryMessage name []
  | RuleObject name params message =>
      match message with
      | Some (String c m) => Ok (Val (VStr (String c m)))
      | _ => registryMessage name (default [] params)
      end
  end.

(** a bare rule name whose registry message is a function: the rule that
    the amended claim leaves aside *)
Definition bareFunctionMessage (rule : RuleSpec) : bool :=
  match rule with
  | RuleName name => isFunction (prop (messages R) name)
  | RuleObject _ _ _ => false
  end.

(** What the loop of [validateField] pushes for a failing rule, read off the
    code: for a bare name the registry's entry as it is (validator.js line
    110 has no [typeof] test), for an object the override when it is truthy,
    else the registry's message, a function being called with the
    parameters (lines 123 to 126). *)
Definition pushedMessage (rule : RuleSpec) : result member :=
  match rule with
  | RuleName name => Ok (prop (messages R) name)
  | RuleObject name params message =>
      match message with
      | Some (String c m) => Ok (Val (VStr (String c m)))
      | _ => registryMessage name (default [] params)
      end
  end.

(** "all failures are collected, not just the first", in declared order *)
Inductive collected (message : RuleSpec -> result member)
    (value : Value) (formData : gmap string Value)
  : list RuleSpec -> list member -> Prop :=
| collected_nil : collected message value formData [] []
| collected_pass (rule : RuleSpec) (rules : list RuleSpec) (errors : list member) :
    rulePasses value formData rule = Ok true ->
    collected message value formData rules errors ->
    collected message value formData (rule :: rules) errors
| collected_fail (rule : RuleSpec) (rules : list RuleSpec) (m : member)
    (errors : list member) :
    rulePasses value formData rule = Ok false ->
    message rule = Ok m ->
    collected message value formData rules errors ->
    collected message value formData (rule :: rules) (m :: errors).

End FieldValidatorSpec.

Section FormValidatorSpec.

Variable R : Registry.
Variables (formData : gmap string Value)
          (validationRules : gmap string (list RuleSpec)).

(** "delegates to Field Validator": the result of a field that has rules,
    when the field validator returns *)
Definition fieldOutcome (fieldName : string) : option FieldResult.t :=
  match validationRules !! fieldName with
  | Some fieldRules =>
      match validator.validateField R (snapshotValue formData fieldName)
              fieldRules formData with
      | Ok r => Some r
      | Throw _ => None
      end
  | None => None
  end.

(** what holds of the three variables of [validateForm] once the fields
    [visited] have been through its loop *)
Definition aggregated (visited : list string) (acc : FormResult.t) : Prop :=
  (forall f, FormResult.results acc !! f
             = if bool_decide (f ∈ visited) then fieldOutcome f else None)
  /\ (forall f, FormResult.errors acc !! f
                = r ← FormResult.results acc !! f;
                  if FieldResult.isValid r then None else Some (FieldResult.errors r))
  /\ (FormResult.isValid acc = true
      <-> forall f r, FormResult.results acc !! f = Some r ->
                      FieldResult.isValid r = true).

End FormValidatorSpec.

(** the result of a field with one rule: valid, or invalid with the rule's
    message *)
Definition verdict (b : bool) (errorMessage : member) : FieldResult.t :=
  if b then FieldResult.mk true [] else FieldResult.mk false [errorMessage].

(** ** Readings of the other operations *)

(** the entries of a form of text controls, as [new FormData(form)] yields
    them: every value is a string *)
Definition textEntries (entries : list (string * string)) : list (string * Value) :=
  map (fun e => (e.1, VStr e.2)) entries.

(** the values that the entries hold under a key, in document order *)
Fixpoint valuesOf (key : string) (entries : list (string * string)) : list string :=
  match entries with
  | [] => []
  | (k, v) :: rest =>
      if String.eqb k key then v :: valuesOf key rest else valuesOf key rest
  end.

(** the values without the empty strings they start with *)
Fixpoint dropEmpty (vs : list string) : list string :=
  match vs with
  | EmptyString :: vs' => dropEmpty vs'
  | _ => vs
  end.

(** what the extracted data holds for a key with the values [vs]: nothing
    when there is no value; else, from the first non-empty value on, the one
    value, or the array of the values when there are several *)
Definition formValue (vs : list string) : option Value :=
  match vs with
  | [] => None
  | _ =>
      Some match dropEmpty vs with
           | [] => VStr ""
           | [v] => VStr v
           | v :: rest => VArr (map VStr (v :: rest))
           end
  end.

(** one entry's effect on the property it is stored under *)
Definition keyUpdate (current : option Value) (v : string) : option Value :=
  let c := default VUndef current in
  Some (if ToBoolean c then
          match c with
          | VArr l => VArr (l ++ [VStr v])
          | _ => VArr [c; VStr v]
          end
        else VStr v).

(** the controller after a submission that passed validation and
    collected [formData]: the event dispatched, the form data logged, and
    the [finally] block run *)
Definition accepted (this1 : Form.t) (formData : gmap string Value) : Form.t :=
  Form.handleSubmit_finally
    (Form.perform (Form.ConsoleLog formData)
       (Form.perform (Form.DispatchEvent (Form.FormSubmit formData))
          (Form.setSubmitState true (Form.setIsSubmitting true this1)))).



(** Regular expressions as the rules write them, each between [^] and [$]
    and without flags: [test] returns true exactly when the whole string is
    in the language of the expression. *)
Module RegExp.

Inductive t : Type :=
| Class (p : ascii -> bool)     (* one code unit of a class *)
| Seq (r1 r2 : t)               (* r1 r2 *)
| Plus (r : t)                  (* r+ *)
| Opt (r : t)                   (* r? *)
| Upto (n : nat) (r : t).       (* r{0,n} *)

Inductive matches : t -> string -> Prop :=
| matches_class (p : ascii -> bool) (c : ascii) :
    p c = true -> matches (Class p) (String c EmptyString)
| matches_seq (r1 r2 : t) (s1 s2 : string) :
    matches r1 s1 -> matches r2 s2 -> matches (Seq r1 r2) (s1 +:+ s2)
| matches_plus_one (r : t) (s : string) :
    matches r s -> matches (Plus r) s
| matches_plus_more (r : t) (s1 s2 : string) :
    matches r s1 -> matches (Plus r) s2 -> matches (Plus r) (s1 +:+ s2)
| matches_opt_none (r : t) : matches (Opt r) EmptyString
| matches_opt_some (r : t) (s : string) : matches r s -> matches (Opt r) s
| matches_upto_none (n : nat) (r : t) : matches (Upto n r) EmptyString
| matches_upto_more (n : nat) (r : t) (s1 s2 : string) :
    matches r s1 -> matches (Upto n r) s2 -> matches (Upto (S n) r) (s1 +:+ s2).


(** [[1-9]] *)
Definition oneToNine (c : ascii) : bool :=
  let n := N_of_ascii c in ((49 <=? n) && (n <=? 57))%N.


(** [/^[\+]?[1-9][\d]{0,15}$/] *)
Definition phoneRegex : t :=
  Seq (Opt (Class (Ascii.eqb "+")))
    (Seq (Class oneToNine) (Upto 15 (Class Regex.isDigit))).



End RegExp.

(** a value that [required] takes for missing: [undefined], [null], or a
    string of white space only *)
Definition isBlank (value : Value) : bool :=
  match value with
  | VUndef | VNull => true
  | VStr s => JSString.all JSString.isWhiteSpace s
  | _ => false
  end.

(** ** Strings: facts *)

Section StringFacts.

Import JSString.

Lemma trimStart_whitespace (s : string) :
  all isWhiteSpace s = true -> trimStart s = EmptyString.
Proof.
  induction s as [|c s IH]; simpl; [done|].
  destruct (isWhiteSpace c); simpl; [exact IH | discriminate].
Qed.

Lemma trim_whitespace (s : string) :
  all isWhiteSpace s = true -> trim s = EmptyString.
Proof. intros H. unfold trim. by rewrite trimStart_whitespace. Qed.

Lemma split_not_nil (sep : ascii) (s : string) : split sep s <> [].
Proof.
  destruct s as [|c s]; simpl; [done|].
  destruct (Ascii.eqb c sep); [done|]. by destruct (split sep s).
Qed.

Lemma split_no_separator (sep : ascii) (s : string) :
  includes sep s = false -> split sep s = [s].
Proof.
  induction s as [|c s IH]; simpl; [done|].
  destruct (Ascii.eqb c sep); simpl; [discriminate|].
  intros H. by rewrite (IH H).
Qed.

Lemma split_at_separator (sep : ascii) (a b : string) :
  includes sep a = false ->
  split sep (a +:+ String sep b) = a :: split sep b.
Proof.
  induction a as [|c a IH]; simpl.
  - intros _. by rewrite Ascii.eqb_refl.
  - destruct (Ascii.eqb c sep); simpl; [discriminate|].
    intros H. by rewrite (IH H).
Qed.

Lemma split_with_separator (sep : ascii) (s : string) :
  includes sep s = true ->
  exists x y rest, split sep s = x :: y :: rest.
Proof.
  induction s as [|c s IH]; simpl; [discriminate|].
  destruct (Ascii.eqb c sep); simpl.
  - intros _. destruct (split sep s) as [|y rest] eqn:E.
    + by apply split_not_nil in E.
    + by exists EmptyString, y, rest.
  - intros H. destruct (IH H) as (x & y & rest & ->).
    by exists (String c x), y, rest.
Qed.

Lemma includes_app (sep : ascii) (a b : string) :
  includes sep (a +:+ b) = includes sep a || includes sep b.
Proof.
  induction a as [|c a IH]; simpl; [done|].
  rewrite IH. by destruct (Ascii.eqb c sep).
Qed.

End StringFacts.

(** ** Rule parser: facts *)

Lemma paramArrayOf_coerced (paramText : string) :
  Forall2 coerced (JSString.split "," paramText) (paramArrayOf paramText).
Proof.
  unfold paramArrayOf. induction (JSString.split "," paramText) as [|p ps IH]; simpl.
  - constructor.
  - constructor; [|exact IH].
    destruct (isNaN (ofString p)) eqn:E; by constructor.
Qed.

Lemma parseRuleString_body_spec (rules : list RuleSpec) (rule : string) :
  exists spec, Form.parseRuleString_body rules rule = Ok (rules ++ [spec])
               /\ parsedFrom rule spec.
Proof.
  unfold Form.parseRuleString_body.
  destruct (JSString.includes ":" rule) eqn:E.
  - destruct (split_with_separator _ _ E) as (name & paramText & rest & Hs).
    rewrite Hs. eexists. split; [reflexivity|].
    eapply parsed_parametric; [exact Hs|]. apply paramArrayOf_coerced.
  - eexists. split; [reflexivity|]. by constructor.
Qed.

Lemma parseRuleString_forOf (tokens : list string) (acc : list RuleSpec) :
  exists specs, forOf Form.parseRuleString_body tokens acc = Ok (acc ++ specs)
                /\ Forall2 parsedFrom tokens specs.
Proof.
  revert acc. induction tokens as [|tok tokens IH]; intros acc; simpl.
  - exists []. by rewrite app_nil_r.
  - destruct (parseRuleString_body_spec acc tok) as (spec & -> & Hspec). simpl.
    destruct (IH (acc ++ [spec])) as (specs & -> & Hspecs).
    exists (spec :: specs). rewrite <- app_assoc. split; [done|]. by constructor.
Qed.

(** C6: parsing a rule string never throws and is a function of the string
    alone: it returns one RuleSpec per [|]-separated token, in order; a token
    without a colon is kept as the bare name whatever the name is, and each
    parameter token of a token with a colon becomes a number exactly when
    [Number] of it is not NaN, and stays a string otherwise. *)
Theorem parseRuleString_total_deterministic (s : string) :
  exists specs,
    Form.parseRuleString s = Ok specs
    /\ (forall r, Form.parseRuleString s = r -> r = Ok specs)
    /\ Forall2 parsedFrom (JSString.split "|" s) specs
    /\ (forall p v, coerced p v ->
          (exists n, v = VNum n) <-> isNaN (ofString p) = false).
Proof.
  unfold Form.parseRuleString.
  destruct (parseRuleString_forOf (JSString.split "|" s) []) as (specs & H & Hspecs).
  exists specs. simpl in H. split; [exact H|]. split; [|split; [exact Hspecs|]].
  - intros r <-. exact H.
  - intros p v Hc. split.
    + intros [n ->]. by inversion Hc.
    + intros Hn. inversion Hc; subst; [by eexists | congruence].
Qed.

(** C10: of a token with two or more colons, [name:params:rest], only the
    text between the first and the second colon becomes the parameters; what
    follows the second colon is dropped. *)
Theorem parseRuleString_drops_after_second_colon (name paramText rest : string) :
  JSString.includes ":" name = false ->
  JSString.includes "|" name = false ->
  JSString.includes ":" paramText = false ->
  JSString.includes "|" paramText = false ->
  JSString.includes "|" rest = false ->
  Form.parseRuleString (name +:+ ":" +:+ paramText +:+ ":" +:+ rest)
  = Ok [RuleObject name (Some (paramArrayOf paramText)) None]
  /\ Form.parseRuleString (name +:+ ":" +:+ paramText +:+ ":" +:+ rest)
     = Form.parseRuleString (name +:+ ":" +:+ paramText).
Proof.
  intros Hn1 Hn2 Hp1 Hp2 Hr.
  assert (Hlong : Form.parseRuleString (name +:+ ":" +:+ paramText +:+ ":" +:+ rest)
                  = Ok [RuleObject name (Some (paramArrayOf paramText)) None]).
  { unfold Form.parseRuleString.
    rewrite split_no_separator
      by (rewrite ?includes_app; simpl; by rewrite Hn2, Hp2, Hr).
    simpl forOf. unfold Form.parseRuleString_body.
    replace (JSString.includes ":" (name +:+ ":" +:+ paramText +:+ ":" +:+ rest))
      with true
      by (rewrite ?includes_app; simpl; by rewrite orb_true_r).
    change (":" +:+ paramText +:+ ":" +:+ rest)
      with (String ":" (paramText +:+ String ":" rest)).
    rewrite (split_at_separator ":" name) by exact Hn1.
    rewrite (split_at_separator ":" paramText) by exact Hp1.
    reflexivity. }
  split; [exact Hlong|]. rewrite Hlong.
  unfold Form.parseRuleString.
  rewrite split_no_separator
    by (rewrite ?includes_app; simpl; by rewrite Hn2, Hp2).
  simpl forOf. unfold Form.parseRuleString_body.
  replace (JSString.includes ":" (name +:+ ":" +:+ paramText)) with true
    by (rewrite ?includes_app; simpl; by rewrite orb_true_r).
  change (":" +:+ paramText) with (String ":" paramText).
  rewrite (split_at_separator ":" name) by exact Hn1.
  rewrite (split_no_separator ":" paramText) by exact Hp1.
  reflexivity.
Qed.

Lemma parseRuleString_drops_after_second_colon_witness :
  Form.parseRuleString "pattern:a:b"
  = Ok [RuleObject "pattern" (Some [VStr "a"]) None]
  /\ Form.parseRuleString "pattern:a:b" = Form.parseRuleString "pattern:a".
Proof.
  apply (parseRuleString_drops_after_second_colon "pattern" "a" "b");
    reflexivity.
Defined.

(** ** Rule registry: facts *)

Section BuiltinRegistry.

Variable URL_parses : string -> bool.
Let R : Registry := validator.builtin URL_parses.

Lemma builtin_required : rules R !! "required" = Some validator.Rules.required.
Proof. reflexivity. Qed.
Lemma builtin_integer : rules R !! "integer" = Some validator.Rules.integer.
Proof. reflexivity. Qed.
Lemma builtin_min : rules R !! "min" = Some validator.Rules.min.
Proof. reflexivity. Qed.
Lemma builtin_message_required :
  messages R !! "required" = Some validator.Messages.required.
Proof. reflexivity. Qed.
Lemma builtin_message_integer :
  messages R !! "integer" = Some validator.Messages.integer.
Proof. reflexivity. Qed.
Lemma builtin_message_min : messages R !! "min" = Some validator.Messages.min.
Proof. reflexivity. Qed.

End BuiltinRegistry.

(** ** Field validator: one rule *)

Section OneRule.

Variable R : Registry.
Variables (value : Value) (formData : gmap string Value).

Lemma validateField_bare (name : string) (f : list Value -> result member)
    (m : member) (b : bool) :
  rules R !! name = Some (Fun f) ->
  messages R !! name = Some m ->
  f [value; VObj formData] = Ok (Val (VBool b)) ->
  validator.validateField R value [RuleName name] formData = Ok (verdict b m).
Proof.
  intros Hr Hm Hf. unfold validator.validateField. cbn [forOf].
  unfold validator.validateField_body, validator.ruleOutcome, prop.
  rewrite Hr, Hm. simpl. rewrite Hf. by destruct b.
Qed.

Lemma validateField_curried (name : string) (f g msg : list Value -> result member)
    (p : Value) (ps : list Value) (m : member) (b : bool) :
  rules R !! name = Some (Fun f) ->
  messages R !! name = Some (Fun msg) ->
  f (p :: ps) = Ok (Fun g) ->
  g [value; VObj formData] = Ok (Val (VBool b)) ->
  msg (p :: ps) = Ok m ->
  validator.validateField R value [RuleObject name (Some (p :: ps)) None] formData
  = Ok (verdict b m).
Proof.
  intros Hr Hm Hf Hg Hmsg. unfold validator.validateField. cbn [forOf].
  unfold validator.validateField_body, validator.ruleOutcome, prop.
  rewrite Hr, Hm. simpl. rewrite Hf. simpl. rewrite Hg. simpl. rewrite Hmsg.
  by destruct b.
Qed.

End OneRule.

(** ** Field validator on the exported registry *)

(** C8: [required] fails for the empty string, a string of white space only,
    [null] and [undefined]: the field is invalid and its one error is the
    message of [required]. *)
Theorem required_rejects_blank (URL_parses : string -> bool) (value : Value)
    (formData : gmap string Value) :
  value = VUndef \/ value = VNull
  \/ (exists s, value = VStr s /\ JSString.all JSString.isWhiteSpace s = true) ->
  validator.validateField (validator.builtin URL_parses) value [RuleName "required"] formData
  = Ok (FieldResult.mk false [Val (VStr "This field is required")]).
Proof.
  intros H.
  apply (validateField_bare _ _ _ "required" _ _ false
           (builtin_required URL_parses) (builtin_message_required URL_parses)).
  destruct H as [-> | [-> | (s & -> & Hs)]]; try reflexivity.
  cbn. by rewrite (trim_whitespace s Hs).
Qed.

Lemma required_rejects_blank_witness :
  validator.validateField (validator.builtin (fun _ => true)) (VStr "   ")
    [RuleName "required"] ∅
  = Ok (FieldResult.mk false [Val (VStr "This field is required")]).
Proof.
  apply (required_rejects_blank (fun _ => true) (VStr "   ") ∅).
  right. right. exists "   "%string. split; reflexivity.
Defined.

(** C9: the empty string passes [integer], because [Number("")] is 0, and
    passes [min] with any bound [n <= 0]. *)
Theorem integer_and_min_accept_empty (URL_parses : string -> bool)
    (formData : gmap string Value) (n : number) :
  JSNumber.le n (zero false) = true ->
  ToNumber (VStr "") = zero false
  /\ validator.validateField (validator.builtin URL_parses) (VStr "")
       [RuleName "integer"] formData
     = Ok (FieldResult.mk true [])
  /\ validator.validateField (validator.builtin URL_parses) (VStr "")
       [RuleObject "min" (Some [VNum n]) None] formData
     = Ok (FieldResult.mk true []).
Proof.
  intros Hn. split; [reflexivity|]. split.
  - by apply (validateField_bare _ _ _ "integer" _ _ true
                (builtin_integer URL_parses) (builtin_message_integer URL_parses)).
  - eapply (validateField_curried _ _ _ "min" _ _ _ _ _ _ true
              (builtin_min URL_parses) (builtin_message_min URL_parses));
      [reflexivity| |reflexivity].
    cbn [arg nth]. change (ToNumber (VStr "")) with (zero false).
    change (JSNumber.ge (zero false) (ToNumber (VNum n)))
      with (JSNumber.le n (zero false)).
    by rewrite Hn.
Qed.

Lemma integer_and_min_accept_empty_witness :
  ToNumber (VStr "") = zero false
  /\ validator.validateField (validator.builtin (fun _ => true)) (VStr "")
       [RuleName "integer"] ∅
     = Ok (FieldResult.mk true [])
  /\ validator.validateField (validator.builtin (fun _ => true)) (VStr "")
       [RuleObject "min" (Some [VNum (ofZ (-5))]) None] ∅
     = Ok (FieldResult.mk true []).
Proof.
  apply (integer_and_min_accept_empty (fun _ => true) ∅ (ofZ (-5))).
  reflexivity.
Defined.


(** ** Field validator on any registry *)

Section FieldValidator.

Variable R : Registry.
Variables (value : Value) (formData : gmap string Value).

Lemma ruleOutcome_unknown_bare (name : string) :
  rules R !! name = None ->
  validator.ruleOutcome R value formData (RuleName name) = Throw TypeError.
Proof.
  intros H. unfold validator.ruleOutcome, prop. by rewrite H.
Qed.

Lemma ruleOutcome_unknown_object (name : string) (params : option (list Value))
    (message : option string) :
  rules R !! name = None ->
  validator.ruleOutcome R value formData (RuleObject name params message)
  = Ok (Val (VBool true), Val (VStr "")).
Proof.
  intros H. unfold validator.ruleOutcome, prop. by rewrite H.
Qed.

(** the loop body against the specification's reading of one rule *)
Lemma ruleOutcome_spec (rule : RuleSpec) (isValid errorMessage : member) :
  validator.ruleOutcome R value formData rule = Ok (isValid, errorMessage) ->
  rulePasses R value formData rule = Ok (truthy isValid)
  /\ (truthy isValid = false -> pushedMessage R rule = Ok errorMessage).
Proof.
  destruct rule as [name | name params message];
    unfold validator.ruleOutcome, rulePasses, pushedMessage, registryMessage, prop.
  - destruct (call (default (Val VUndef) (rules R !! name)) [value; VObj formData])
      as [verdict|e]; simpl; [|discriminate].
    intros [= <- <-]. done.
  - destruct (rules R !! name) as [entry|]; simpl.
    2: { intros [= <- <-]. done. }
    destruct (truthy entry); simpl.
    2: { intros [= <- <-]. done. }
    set (ps := default [] params).
    assert (Hfun : exists rf,
               (if (0 <? length ps)%nat then call entry ps else Ok entry) = rf
               /\ match ps with
                  | [] => Ok entry
                  | v :: l => call entry (v :: l)
                  end = rf).
    { destruct ps; eauto. }
    destruct Hfun as (rf & -> & ->).
    destruct rf as [predicate|e]; simpl; [|discriminate].
    destruct (call predicate [value; VObj formData]) as [verdict|e];
      simpl; [|discriminate].
    destruct message as [[|c m]|]; simpl.
    + destruct (messages R !! name) as [[v|f]|]; simpl.
      * intros [= <- <-]. done.
      * destruct (f ps); simpl; [|discriminate].
        intros [= <- <-]. done.
      * intros [= <- <-]. done.
    + intros [= <- <-]. done.
    + destruct (messages R !! name) as [[v|f]|]; simpl.
      * intros [= <- <-]. done.
      * destruct (f ps); simpl; [|discriminate].
        intros [= <- <-]. done.
      * intros [= <- <-]. done.
Qed.

Lemma validateField_body_outcome (rule : RuleSpec) (isValid errorMessage : member)
    (errors : list member) :
  validator.ruleOutcome R value formData rule = Ok (isValid, errorMessage) ->
  validator.validateField_body R value formData errors rule
  = Ok (if truthy isValid then errors else errors ++ [errorMessage]).
Proof.
  intros Ho. unfold validator.validateField_body. rewrite Ho. simpl.
  by destruct (truthy isValid).
Qed.

Lemma validateField_body_throws (rule : RuleSpec) (e : exn) (errors : list member) :
  validator.ruleOutcome R value formData rule = Throw e ->
  validator.validateField_body R value formData errors rule = Throw e.
Proof.
  intros Ho. unfold validator.validateField_body. by rewrite Ho.
Qed.

Lemma validateField_forOf (rs : list RuleSpec) (acc : list member) :
  (exists errors,
      forOf (validator.validateField_body R value formData) rs acc = Ok (acc ++ errors)
      /\ collected R (pushedMessage R) value formData rs errors)
  \/ (exists e,
      forOf (validator.validateField_body R value formData) rs acc = Throw e
      /\ Exists (fun r => validator.ruleOutcome R value formData r = Throw e) rs).
Proof.
  revert acc. induction rs as [|r rs IH]; intros acc.
  - left. exists []. split; [by rewrite app_nil_r | constructor].
  - cbn [forOf].
    destruct (validator.ruleOutcome R value formData r) as [[isValid msg]|e] eqn:Ho.
    2: { right. exists e. rewrite (validateField_body_throws _ _ _ Ho).
         split; [done|]. by left. }
    rewrite (validateField_body_outcome _ _ _ _ Ho).
    destruct (ruleOutcome_spec _ _ _ Ho) as [Hp Hm].
    destruct (truthy isValid) eqn:Et; simpl.
    + destruct (IH acc) as [(errors & -> & Hc) | (e & -> & He)].
      * left. exists errors. split; [done|]. by apply collected_pass.
      * right. exists e. split; [done|]. by right.
    + destruct (IH (acc ++ [msg])) as [(errors & -> & Hc) | (e & -> & He)].
      * left. exists (msg :: errors). rewrite <- app_assoc. split; [done|].
        apply collected_fail; auto.
      * right. exists e. split; [done|]. by right.
Qed.

End FieldValidator.

(** C1: for a rule name absent from the registry, the name-with-parameters
    object is inert (it adds no error and does not throw), and the bare
    name makes [validateField] throw a TypeError: [this.rules[rule]] is
    undefined and is called. *)
Theorem unknown_rule_name (R : Registry) (name : string) (value : Value)
    (formData : gmap string Value) (params : option (list Value))
    (message : option string) (rest : list RuleSpec) :
  rules R !! name = None ->
  validator.validateField R value [RuleObject name params message] formData
  = Ok (FieldResult.mk true [])
  /\ validator.validateField R value (RuleName name :: rest) formData
     = Throw TypeError.
Proof.
  intros H. unfold validator.validateField. cbn [forOf].
  unfold validator.validateField_body.
  rewrite ruleOutcome_unknown_object, ruleOutcome_unknown_bare by exact H.
  done.
Qed.

Lemma unknown_rule_name_witness :
  validator.validateField (validator.builtin (fun _ => true)) (VStr "x")
    [RuleObject "requird" None None] ∅
  = Ok (FieldResult.mk true [])
  /\ validator.validateField (validator.builtin (fun _ => true)) (VStr "x")
       [RuleName "requird"; RuleName "email"] ∅
     = Throw TypeError.
Proof.
  apply (unknown_rule_name (validator.builtin (fun _ => true)) "requird"
           (VStr "x") ∅ None None [RuleName "email"]).
  reflexivity.
Defined.

Lemma amendedMessage_pushed (R : Registry) (rule : RuleSpec) :
  bareFunctionMessage R rule = false ->
  amendedMessage R rule = pushedMessage R rule.
Proof.
  destruct rule as [name|name params message]; [|done].
  unfold bareFunctionMessage, amendedMessage, pushedMessage, registryMessage, prop.
  by destruct (messages R !! name) as [[v|f]|].
Qed.

Lemma collected_amended (R : Registry) (value : Value) (formData : gmap string Value)
    (rs : list RuleSpec) (errors : list member) :
  Forall (fun rule => rulePasses R value formData rule = Ok false ->
                      bareFunctionMessage R rule = false) rs ->
  collected R (pushedMessage R) value formData rs errors ->
  collected R (amendedMessage R) value formData rs errors.
Proof.
  intros Hrs Hc. induction Hc as [|rule rs errors Hp Hc IH|rule rs m errors Hp Hm Hc IH];
    [constructor|..]; apply Forall_cons in Hrs as [Hrule Hrs].
  - apply collected_pass; [exact Hp | by apply IH].
  - apply collected_fail; [exact Hp | | by apply IH].
    by rewrite (amendedMessage_pushed R rule (Hrule Hp)).
Qed.

(** C4 (amended): for every value, rule list and form snapshot on which
    [validateField] returns, the errors are the resolved messages of the
    failing rules, all of them and in declared order: the override message
    when the RuleSpec carries a non-empty one, else the registry's message,
    a parametric message function being called with the rule's parameters;
    and [isValid] is [errors.length === 0].  A failing rule that is a bare
    name whose registry message is a function is left aside. *)
Theorem validateField_collects_failures (R : Registry) (value : Value)
    (rs : list RuleSpec) (formData : gmap string Value) (r : FieldResult.t) :
  Forall (fun rule => rulePasses R value formData rule = Ok false ->
                      bareFunctionMessage R rule = false) rs ->
  validator.validateField R value rs formData = Ok r ->
  collected R (amendedMessage R) value formData rs (FieldResult.errors r)
  /\ FieldResult.isValid r = (length (FieldResult.errors r) =? 0)%nat.
Proof.
  intros Hrs. unfold validator.validateField.
  destruct (validateField_forOf R value formData rs [])
    as [(errors & -> & Hc) | (e & -> & He)]; [|discriminate].
  simpl. intros [= <-]. simpl. split; [|done].
  by apply collected_amended.
Qed.

(** all the failures of a field, in declared order, the override message
    where there is one *)
Lemma validateField_collects_failures_witness :
  collected (validator.builtin (fun _ => true))
    (amendedMessage (validator.builtin (fun _ => true))) (VStr "") ∅
    [RuleName "required"; RuleObject "min" (Some [VNum (ofZ 1)]) (Some "Too small");
     RuleName "integer"; RuleName "email"]
    [Val (VStr "This field is required"); Val (VStr "Too small");
     Val (VStr "Please enter a valid email address")]
  /\ false = (length [Val (VStr "This field is required"); Val (VStr "Too small");
                      Val (VStr "Please enter a valid email address")] =? 0)%nat.
Proof.
  apply (validateField_collects_failures (validator.builtin (fun _ => true)) (VStr "")
           [RuleName "required"; RuleObject "min" (Some [VNum (ofZ 1)]) (Some "Too small");
            RuleName "integer"; RuleName "email"] ∅
           (FieldResult.mk false
              [Val (VStr "This field is required"); Val (VStr "Too small");
               Val (VStr "Please enter a valid email address")])).
  - repeat constructor.
  - vm_compute. reflexivity.
Defined.

(** C4 as stated fails in two ways.  On an empty override message: the rule
    [{rule: 'required', message: ''}] fails on the empty string, and the
    error collected is the registry's message, not the override.  And where
    a rule throws, as [{rule: 'required', params: [1]}] does on every value
    ([required(1)] is a boolean, which is then called): [validateField]
    throws and returns no result. *)
Lemma validateField_collects_failures_counterexample :
  (validator.validateField (validator.builtin (fun _ => true)) (VStr "")
     [RuleObject "required" None (Some "")] ∅
   = Ok (FieldResult.mk false [Val (VStr "This field is required")])
   /\ ~ collected (validator.builtin (fun _ => true))
          (claimedMessage (validator.builtin (fun _ => true))) (VStr "") ∅
          [RuleObject "required" None (Some "")]
          [Val (VStr "This field is required")])
  /\ validator.validateField (validator.builtin (fun _ => true)) (VStr "x")
       [RuleObject "required" (Some [VNum (ofZ 1)]) None] ∅
     = Throw TypeError.
Proof.
  split; [split|].
  - vm_compute. reflexivity.
  - intros Hc. inversion Hc as [|? ? ? Hp _|? ? ? ? Hp Hm _]; subst.
    + vm_compute in Hp. discriminate.
    + simpl in Hm. discriminate.
  - vm_compute. reflexivity.
Qed.

(** ** Form validator *)

Section FormValidator.

Variable R : Registry.
Variables (formData : gmap string Value)
          (validationRules : gmap string (list RuleSpec)).

Lemma validateField_isValid (value : Value) (rs : list RuleSpec) (r : FieldResult.t) :
  validator.validateField R value rs formData = Ok r ->
  FieldResult.isValid r = (length (FieldResult.errors r) =? 0)%nat.
Proof.
  unfold validator.validateField.
  destruct (forOf _ rs []) as [errors|e]; simpl; [|discriminate].
  by intros [= <-].
Qed.

Lemma fieldValue_snapshotValue (fieldName : string) :
  (if ToBoolean (propValue formData fieldName) then propValue formData fieldName
   else VStr "")
  = snapshotValue formData fieldName.
Proof.
  unfold propValue, snapshotValue. by destruct (formData !! fieldName).
Qed.

Lemma keys_spec (fieldName : string) :
  fieldName ∈ validator.keys validationRules
  <-> is_Some (validationRules !! fieldName).
Proof.
  unfold validator.keys. rewrite list_elem_of_fmap. split.
  - intros [[k rs] [-> H]]. apply elem_of_map_to_list in H. by exists rs.
  - intros [rs H]. exists (fieldName, rs). split; [done|].
    by apply elem_of_map_to_list.
Qed.

Lemma aggregated_init :
  aggregated R formData validationRules [] (FormResult.mk true ∅ ∅).
Proof.
  split; [|split]; simpl.
  - intros f. by rewrite lookup_empty.
  - intros f. by rewrite !lookup_empty.
  - split; [|done]. intros _ f r. by rewrite lookup_empty.
Qed.

Lemma validateForm_body_step (visited : list string) (acc : FormResult.t)
    (fieldName : string) (fieldRules : list RuleSpec) (r : FieldResult.t) :
  aggregated R formData validationRules visited acc ->
  validationRules !! fieldName = Some fieldRules ->
  validator.validateField R (snapshotValue formData fieldName) fieldRules formData = Ok r ->
  exists acc',
    validator.validateForm_body R formData validationRules acc fieldName = Ok acc'
    /\ aggregated R formData validationRules (visited ++ [fieldName]) acc'.
Proof.
  intros (Hres & Herr & Hval) Hrules Hr.
  assert (Hout : fieldOutcome R formData validationRules fieldName = Some r).
  { unfold fieldOutcome. by rewrite Hrules, Hr. }
  assert (Hresults : forall f,
             <[fieldName := r]> (FormResult.results acc) !! f
             = if bool_decide (f ∈ visited ++ [fieldName])
               then fieldOutcome R formData validationRules f else None).
  { intros f. destruct (decide (fieldName = f)) as [<-|Hne].
    - rewrite lookup_insert_eq, bool_decide_eq_true_2; [done|].
      apply elem_of_app. right. by apply list_elem_of_singleton.
    - rewrite lookup_insert_ne by done. rewrite Hres.
      apply (f_equal (fun b : bool =>
               if b then fieldOutcome R formData validationRules f else None)).
      apply bool_decide_ext. rewrite elem_of_app, list_elem_of_singleton.
      split; [by left | intros [H | ->]; [exact H | done]]. }
  assert (Hold : forall r', FormResult.results acc !! fieldName = Some r' -> r' = r).
  { intros r' H. rewrite Hres in H. case_bool_decide; congruence. }
  unfold validator.validateForm_body.
  rewrite fieldValue_snapshotValue, Hrules, Hr. simpl.
  destruct (FieldResult.isValid r) eqn:Ev; simpl; eexists; (split; [reflexivity|]).
  - split; [|split]; simpl.
    + exact Hresults.
    + intros f. destruct (decide (fieldName = f)) as [<-|Hne].
      * rewrite lookup_insert_eq. simpl. rewrite Ev. rewrite Herr.
        destruct (FormResult.results acc !! fieldName) as [r'|] eqn:E; [|done].
        simpl. rewrite (Hold r' eq_refl). by rewrite Ev.
      * rewrite lookup_insert_ne by done. apply Herr.
    + rewrite Hval. split.
      * intros H f r'. destruct (decide (fieldName = f)) as [<-|Hne].
        -- rewrite lookup_insert_eq. by intros [= <-].
        -- rewrite lookup_insert_ne by done. apply H.
      * intros H f r' Hf. destruct (decide (fieldName = f)) as [<-|Hne].
        -- rewrite (Hold r' Hf). exact Ev.
        -- apply (H f). by rewrite lookup_insert_ne.
  - split; [|split]; simpl.
    + exact Hresults.
    + intros f. destruct (decide (fieldName = f)) as [<-|Hne].
      * rewrite !lookup_insert_eq. simpl. by rewrite Ev.
      * rewrite !lookup_insert_ne by done. apply Herr.
    + split; [discriminate|]. intros H.
      rewrite <- Ev. apply (H fieldName). apply lookup_insert_eq.
Qed.

Lemma validateForm_forOf (ks visited : list string) (acc : FormResult.t) :
  (forall f, f ∈ ks -> exists rs r,
      validationRules !! f = Some rs
      /\ validator.validateField R (snapshotValue formData f) rs formData = Ok r) ->
  aggregated R formData validationRules visited acc ->
  exists res,
    forOf (validator.validateForm_body R formData validationRules) ks acc = Ok res
    /\ aggregated R formData validationRules (visited ++ ks) res.
Proof.
  revert visited acc. induction ks as [|k ks IH]; intros visited acc Hks Hacc.
  - exists acc. by rewrite app_nil_r.
  - destruct (Hks k) as (rs & r & Hrs & Hr); [by left|].
    destruct (validateForm_body_step visited acc k rs r Hacc Hrs Hr)
      as (acc' & Hbody & Hacc').
    cbn [forOf]. rewrite Hbody. simpl.
    destruct (IH (visited ++ [k]) acc') as (res & Hres & Hagg); [|done|].
    { intros f Hf. apply Hks. by right. }
    exists res. split; [done|]. by rewrite <- app_assoc in Hagg.
Qed.

End FormValidator.

(** C5 (amended): when no field name of the rules map is a name of
    [Object.prototype] (for such a name the code reads the inherited member
    where the snapshot has no value) and the field validator returns for
    every field of the rules map, [validateForm] returns; its results hold exactly the fields of the rules
    map (a snapshot field without rules is not in them), each with the
    field validator's result on the snapshot value, the empty string
    standing in for a missing value; [isValid] is the conjunction of the
    fields' results; and the error map holds exactly the fields with at
    least one error, each with its errors. *)
Theorem validateForm_aggregates (R : Registry) (formData : gmap string Value)
    (validationRules : gmap string (list RuleSpec)) :
  (forall f, is_Some (validationRules !! f) -> inherited f = false) ->
  (forall f rs, validationRules !! f = Some rs ->
     exists r, validator.validateField R (snapshotValue formData f) rs formData = Ok r) ->
  exists res,
    validator.validateForm R formData validationRules = Ok res
    /\ (forall f, validationRules !! f = None -> FormResult.results res !! f = None)
    /\ (forall f rs, validationRules !! f = Some rs ->
          exists r, validator.validateField R (snapshotValue formData f) rs formData = Ok r
                    /\ FormResult.results res !! f = Some r)
    /\ (forall f, formData !! f = None -> snapshotValue formData f = VStr "")
    /\ (FormResult.isValid res = true
        <-> forall f r, FormResult.results res !! f = Some r ->
                        FieldResult.isValid r = true)
    /\ (forall f es, FormResult.errors res !! f = Some es
          <-> exists r, FormResult.results res !! f = Some r
                        /\ (0 < length (FieldResult.errors r))%nat
                        /\ es = FieldResult.errors r).
Proof.
  intros _ Hall. unfold validator.validateForm.
  destruct (validateForm_forOf R formData validationRules
              (validator.keys validationRules) [] (FormResult.mk true ∅ ∅))
    as (res & Hres & Hresults & Herrors & Hvalid).
  { intros f Hf. apply keys_spec in Hf as [rs Hrs].
    destruct (Hall f rs Hrs) as [r Hr]. by exists rs, r. }
  { apply aggregated_init. }
  simpl in Hresults.
  assert (Hlookup : forall f, FormResult.results res !! f
                              = fieldOutcome R formData validationRules f).
  { intros f. rewrite Hresults. case_bool_decide as Hf; [done|].
    unfold fieldOutcome. destruct (validationRules !! f) eqn:E; [|done].
    exfalso. apply Hf, keys_spec. by eexists. }
  exists res. split; [exact Hres|]. split; [|split; [|split; [|split]]].
  - intros f Hf. rewrite Hlookup. unfold fieldOutcome. by rewrite Hf.
  - intros f rs Hrs. destruct (Hall f rs Hrs) as [r Hr]. exists r. split; [done|].
    rewrite Hlookup. unfold fieldOutcome. by rewrite Hrs, Hr.
  - intros f Hf. unfold snapshotValue. by rewrite Hf.
  - exact Hvalid.
  - intros f es. rewrite Herrors.
    destruct (FormResult.results res !! f) as [r|] eqn:E; simpl.
    + assert (Hv : FieldResult.isValid r = (length (FieldResult.errors r) =? 0)%nat).
      { rewrite Hlookup in E. unfold fieldOutcome in E.
        destruct (validationRules !! f) as [rs|]; [|discriminate].
        destruct (validator.validateField R (snapshotValue formData f) rs formData)
          as [r'|] eqn:Er; [|discriminate].
        injection E as ->. exact (validateField_isValid R formData _ rs _ Er). }
      rewrite Hv. destruct (length (FieldResult.errors r)) eqn:El; simpl.
      * split; [discriminate|]. intros (r' & [= <-] & Hlen & _). rewrite El in Hlen. lia.
      * split.
        -- intros [= <-]. exists r. rewrite El. split; [done|]. split; [lia|done].
        -- intros (r' & [= <-] & _ & ->). done.
    + split; [discriminate|]. intros (r' & [=] & _).
Qed.

Lemma validateForm_aggregates_witness :
  exists res,
    validator.validateForm (validator.builtin (fun _ => true))
      (<["email" := VStr "bad"]> (<["name" := VStr "ok"]> ∅))
      (<["email" := [RuleName "required"; RuleName "email"]]>
         (<["name" := [RuleName "required"]]> ∅))
    = Ok res
    /\ FormResult.isValid res = false
    /\ FormResult.errors res !! "email"
       = Some [Val (VStr "Please enter a valid email address")]
    /\ FormResult.errors res !! "name" = None.
Proof.
  destruct (validateForm_aggregates (validator.builtin (fun _ => true))
              (<["email" := VStr "bad"]> (<["name" := VStr "ok"]> ∅))
              (<["email" := [RuleName "required"; RuleName "email"]]>
                 (<["name" := [RuleName "required"]]> ∅)))
    as (res & Hres & _).
  - intros f [rs H].
    apply lookup_insert_Some in H as [[<- <-]|[_ H]]; [reflexivity|].
    apply lookup_insert_Some in H as [[<- <-]|[_ H]]; [reflexivity|].
    by rewrite lookup_empty in H.
  - intros f rs H.
    apply lookup_insert_Some in H as [[<- <-]|[_ H]];
      [eexists; vm_compute; reflexivity|].
    apply lookup_insert_Some in H as [[<- <-]|[_ H]];
      [eexists; vm_compute; reflexivity|].
    by rewrite lookup_empty in H.
  - exists res. split; [exact Hres|].
    vm_compute in Hres. injection Hres as <-. vm_compute. done.
Defined.

(** C5 as stated fails where the field validator throws on a field, as it
    does on every value for the rule [{rule: 'required', params: [1]}] that
    [data-validate="required:1"] declares ([required(1)] is a boolean, which
    is then called): the loop of [validateForm] has no [catch], so
    [validateForm] throws and returns no result. *)
Lemma validateForm_aggregates_counterexample :
  validator.validateForm (validator.builtin (fun _ => true))
    {["name" := VStr "ok"]}
    {["name" := [RuleObject "required" (Some [VNum (ofZ 1)]) None]]}
  = Throw TypeError
  /\ Form.parseRuleString "required:1"
     = Ok [RuleObject "required" (Some [VNum (ofZ 1)]) None].
Proof. split; vm_compute; reflexivity. Qed.

(** ** Submission controller *)

Section ControllerFacts.

Import Form.

Variable R : Registry.
Variable host : Host.

Lemma handleSubmit_submitting (fuel : nat) (this : t) :
  isSubmitting this = true ->
  handleSubmit R host (S fuel) this = Some (this, Fulfilled).
Proof. intros H. simpl. by rewrite H. Qed.

Lemma runListener_fixed (reenter : t -> option t) (actions : list ListenerAction)
    (this : t) (canceled : bool) :
  reenter this = Some this ->
  runListener reenter false actions this canceled = Some (this, canceled).
Proof.
  intros Hre. revert canceled.
  induction actions as [|[| |] actions IH]; intros canceled; simpl; try done.
  - rewrite Hre. simpl. apply IH.
  - rewrite orb_false_r. apply IH.
Qed.

Lemma dispatchEvent_fixed (reenter : t -> option t)
    (listeners : list (list ListenerAction)) (this : t) (canceled : bool) :
  reenter this = Some this ->
  dispatchEvent reenter false listeners this canceled = Some (this, canceled).
Proof.
  intros Hre. induction listeners as [|l ls IH]; simpl; [done|].
  rewrite runListener_fixed by exact Hre. simpl. exact IH.
Qed.

Lemma reenter_submitting (fuel : nat) (this : t) :
  isSubmitting this = true ->
  fst <$> handleSubmit R host (S fuel) this = Some this.
Proof. intros H. by rewrite handleSubmit_submitting. Qed.

(** the state in which [handleSubmit] leaves a call that passed
    validation: what the [try] or the [catch] did, then the [finally] *)
Lemma handleSubmit_accepted (fuel : nat) (this this1 : t) (validation : FormResult.t) :
  isSubmitting this = false ->
  validateForm R host this = Ok (this1, validation) ->
  FormResult.isValid validation = true ->
  handleSubmit R host (S (S fuel)) this
  = Some (handleSubmit_finally
            (match entriesAtSubmit host with
             | Ok entries =>
                 let formData := validator.extractFormData entries in
                 perform (ConsoleLog formData)
                   (perform (DispatchEvent (FormSubmit formData))
                      (setSubmitState true (setIsSubmitting true this1)))
             | Throw error =>
                 perform (DispatchEvent (FormError error))
                   (perform (ConsoleError error)
                      (setSubmitState true (setIsSubmitting true this1)))
             end),
          Fulfilled).
Proof.
  intros Hidle Hv Hvalid.
  change (handleSubmit R host (S (S fuel)) this)
    with (if isSubmitting this then Some (this, Fulfilled)
          else
            match validateForm R host this with
            | Throw error => Some (this, Rejected error)
            | Ok (this1, validation) =>
                if negb (FormResult.isValid validation) then Some (this1, Fulfilled)
                else
                  let reenter := fun f => fst <$> handleSubmit R host (S fuel) f in
                  let this2 := setSubmitState true (setIsSubmitting true this1) in
                  '(this3, tried) ← handleSubmit_try host reenter this2;
                  this4 ← match tried with
                          | Ok _ => Some this3
                          | Throw error => handleSubmit_catch host reenter error this3
                          end;
                  Some (handleSubmit_finally this4, Fulfilled)
            end).
  rewrite Hidle, Hv, Hvalid. cbn [negb].
  set (this2 := setSubmitState true (setIsSubmitting true this1)).
  assert (Hsub : isSubmitting this2 = true).
  { subst this2. unfold setSubmitState. simpl. by destruct (submitButton this1). }
  cbv zeta. unfold handleSubmit_try, handleSubmit_catch.
  destruct (entriesAtSubmit host) as [entries|error]; simpl.
  - rewrite dispatchEvent_fixed by (apply reenter_submitting; exact Hsub).
    reflexivity.
  - rewrite dispatchEvent_fixed by (apply reenter_submitting; exact Hsub).
    reflexivity.
Qed.

Lemma validateForm_state (this this1 : t) (validation : FormResult.t) :
  validateForm R host this = Ok (this1, validation) ->
  this1 = perform (DisplayErrors (FormResult.errors validation)) this.
Proof.
  unfold validateForm.
  destruct (entriesAtValidation host) as [entries|]; simpl; [|discriminate].
  destruct (validator.validateForm R _ _) as [res|]; simpl; [|discriminate].
  by intros [= <- <-].
Qed.

Lemma finally_isSubmitting (this : t) :
  isSubmitting (handleSubmit_finally this) = false.
Proof.
  unfold handleSubmit_finally, setSubmitState. simpl.
  by destruct (submitButton this).
Qed.

Lemma finally_button (this1 : t) (es : list Effect) (b : SubmitButton) :
  submitButton this1 = Some b ->
  exists b',
    submitButton
      (handleSubmit_finally
         (fold_left (fun f e => perform e f) es
            (setSubmitState true (setIsSubmitting true this1))))
    = Some b'
    /\ disabled b' = false
    /\ textContent b'
       = (if String.eqb (textContent b) "" then "Submitting..." else textContent b)%string.
Proof.
  intros Hb.
  assert (Hfold : forall f,
             submitButton (fold_left (fun f e => perform e f) es f) = submitButton f).
  { induction es as [|e es IH]; intros f; simpl; [done|]. by rewrite IH. }
  unfold handleSubmit_finally. unfold setSubmitState at 1. simpl.
  rewrite Hfold. unfold setSubmitState, setIsSubmitting. simpl. rewrite Hb. simpl.
  eexists. split; [reflexivity|]. split; [reflexivity|]. simpl.
  by destruct (textContent b).
Qed.

End ControllerFacts.

Lemma finally_effects (this : Form.t) :
  Form.effects (Form.handleSubmit_finally this) = Form.effects this.
Proof.
  unfold Form.handleSubmit_finally, Form.setSubmitState. simpl.
  by destruct (Form.submitButton this).
Qed.

(** C2: a call of [handleSubmit] made while the controller is not submitting
    returns with [isSubmitting] false on every exit path (validation threw
    or rejected, the event was emitted, an error was thrown on the success
    path); on the last two paths the matching event has been dispatched and
    the submit button is enabled again.  Its text is the original text when
    that text was not empty; a button whose text was empty is left with
    'Submitting...': [setSubmitState(true)] saves the text in
    [dataset.originalText] to write it back, and the test
    [if (submitButton.dataset.originalText)] of [setSubmitState(false)]
    takes the saved empty string for no saved text. *)
Theorem handleSubmit_returns_to_idle (R : Registry) (host : Form.Host) (fuel : nat)
    (this : Form.t) :
  Form.isSubmitting this = false ->
  exists this' settled,
    Form.handleSubmit R host (S (S fuel)) this = Some (this', settled)
    /\ Form.isSubmitting this' = false
    /\ (forall this1 validation,
          Form.validateForm R host this = Ok (this1, validation) ->
          FormResult.isValid validation = true ->
          settled = Form.Fulfilled
          /\ (forall entries, Form.entriesAtSubmit host = Ok entries ->
                In (Form.DispatchEvent (Form.FormSubmit (validator.extractFormData entries)))
                   (Form.effects this'))
          /\ (forall error, Form.entriesAtSubmit host = Throw error ->
                In (Form.DispatchEvent (Form.FormError error)) (Form.effects this'))
          /\ (forall b, Form.submitButton this = Some b ->
                exists b', Form.submitButton this' = Some b'
                           /\ Form.disabled b' = false
                           /\ Form.textContent b'
                              = (if String.eqb (Form.textContent b) ""
                                 then "Submitting..."
                                 else Form.textContent b)%string)).
Proof.
  intros Hidle.
  destruct (Form.validateForm R host this) as [[this1 validation]|error] eqn:Hv.
  2: { exists this, (Form.Rejected error). simpl. rewrite Hidle, Hv.
       split; [done|]. split; [done|]. discriminate. }
  pose proof (validateForm_state R host _ _ _ Hv) as H1.
  destruct (FormResult.isValid validation) eqn:Hvalid.
  2: { exists this1, Form.Fulfilled. simpl. rewrite Hidle, Hv, Hvalid. simpl.
       split; [done|]. split; [by subst this1|].
       intros ? ? [= <- <-]. congruence. }
  rewrite (handleSubmit_accepted R host fuel this this1 validation Hidle Hv Hvalid).
  eexists _, _. split; [reflexivity|]. split; [apply finally_isSubmitting|].
  intros ? ? [= <- <-] _. split; [done|].
  split; [|split].
  - intros entries He. rewrite He, finally_effects. simpl.
    apply in_or_app. left. apply in_or_app. right. by left.
  - intros error He. rewrite He, finally_effects. simpl.
    apply in_or_app. right. by left.
  - intros b Hb.
    assert (Hb1 : Form.submitButton this1 = Some b) by (by subst this1).
    destruct (Form.entriesAtSubmit host) as [entries|error].
    + destruct (finally_button this1
                  [Form.DispatchEvent (Form.FormSubmit (validator.extractFormData entries));
                   Form.ConsoleLog (validator.extractFormData entries)] b Hb1)
        as (b' & Hb' & Hd & Ht).
      exists b'. split; [exact Hb'|]. split; [exact Hd|]. exact Ht.
    + destruct (finally_button this1
                  [Form.ConsoleError error; Form.DispatchEvent (Form.FormError error)]
                  b Hb1)
        as (b' & Hb' & Hd & Ht).
      exists b'. split; [exact Hb'|]. split; [exact Hd|]. exact Ht.
Qed.

Lemma handleSubmit_returns_to_idle_witness :
  exists this' b',
    Form.handleSubmit (validator.builtin (fun _ => true))
      {| Form.entriesAtValidation := Ok [("name", VStr "ok")];
         Form.entriesAtSubmit := Ok [("name", VStr "ok")];
         Form.submitListeners := [];
         Form.errorListeners := [] |}
      2
      {| Form.validationRules := {["name" := [RuleName "required"]]};
         Form.isSubmitting := false;
         Form.submitButton :=
           Some {| Form.disabled := false; Form.classList := ["btn"];
                   Form.textContent := ""; Form.dataset_originalText := None |};
         Form.effects := [] |}
    = Some (this', Form.Fulfilled)
    /\ Form.isSubmitting this' = false
    /\ Form.submitButton this' = Some b'
    /\ Form.disabled b' = false
    /\ Form.textContent b' = "Submitting..."%string.
Proof.
  destruct (handleSubmit_returns_to_idle (validator.builtin (fun _ => true))
      {| Form.entriesAtValidation := Ok [("name", VStr "ok")];
         Form.entriesAtSubmit := Ok [("name", VStr "ok")];
         Form.submitListeners := [];
         Form.errorListeners := [] |}
      0
      {| Form.validationRules := {["name" := [RuleName "required"]]};
         Form.isSubmitting := false;
         Form.submitButton :=
           Some {| Form.disabled := false; Form.classList := ["btn"];
                   Form.textContent := ""; Form.dataset_originalText := None |};
         Form.effects := [] |}
      eq_refl)
    as (this' & settled & H & Hidle & Hpaths).
  match type of Hpaths with
  | forall this1 validation, ?lhs = _ -> _ =>
      assert (Hv : exists this1 validation,
                 lhs = Ok (this1, validation)
                 /\ FormResult.isValid validation = true)
  end.
  { eexists _, _. split; vm_compute; reflexivity. }
  destruct Hv as (this1 & validation & Hv & Hvalid).
  destruct (Hpaths this1 validation Hv Hvalid) as (Hs & _ & _ & Hbutton).
  destruct (Hbutton _ eq_refl) as (b' & Hb' & Hd & Ht).
  exists this', b'. subst settled.
  split; [exact H|]. split; [exact Hidle|]. split; [exact Hb'|]. split; [exact Hd|].
  exact Ht.
Defined.

(** C3: while the controller is submitting, a call of [handleSubmit] returns
    at once and changes nothing: no validation, no event.  So whatever the
    listeners of the submit event do, calling [handleSubmit] again included,
    an accepted submission dispatches 'form:submit' exactly once. *)
Theorem handleSubmit_reentrant_noop (R : Registry) (host : Form.Host) (fuel : nat)
    (this this1 : Form.t) (validation : FormResult.t)
    (entries : list (string * Value)) :
  Form.isSubmitting this = false ->
  Form.validateForm R host this = Ok (this1, validation) ->
  FormResult.isValid validation = true ->
  Form.entriesAtSubmit host = Ok entries ->
  (forall during, Form.isSubmitting during = true ->
     Form.handleSubmit R host (S fuel) during = Some (during, Form.Fulfilled))
  /\ exists this',
       Form.handleSubmit R host (S (S fuel)) this = Some (this', Form.Fulfilled)
       /\ Form.submitEmissions this' = S (Form.submitEmissions this).
Proof.
  intros Hidle Hv Hvalid He. split.
  - intros during. apply handleSubmit_submitting.
  - rewrite (handleSubmit_accepted R host fuel this this1 validation Hidle Hv Hvalid).
    rewrite He. eexists. split; [reflexivity|].
    unfold Form.submitEmissions. rewrite finally_effects.
    rewrite (validateForm_state R host _ _ _ Hv).
    unfold Form.setSubmitState, Form.setIsSubmitting. simpl.
    destruct (Form.submitButton this); simpl;
      rewrite !List.filter_app, !length_app; simpl; lia.
Qed.

Lemma handleSubmit_reentrant_noop_witness :
  exists this',
    Form.handleSubmit (validator.builtin (fun _ => true))
      {| Form.entriesAtValidation := Ok [("name", VStr "ok")];
         Form.entriesAtSubmit := Ok [("name", VStr "ok")];
         Form.submitListeners :=
           [[Form.CallHandleSubmit]; [Form.PreventDefault; Form.CallHandleSubmit]];
         Form.errorListeners := [] |}
      2
      {| Form.validationRules := {["name" := [RuleName "required"]]};
         Form.isSubmitting := false;
         Form.submitButton := None;
         Form.effects := [] |}
    = Some (this', Form.Fulfilled)
    /\ Form.submitEmissions this' = 1%nat.
Proof.
  eapply (proj2 (handleSubmit_reentrant_noop (validator.builtin (fun _ => true))
            {| Form.entriesAtValidation := Ok [("name", VStr "ok")];
               Form.entriesAtSubmit := Ok [("name", VStr "ok")];
               Form.submitListeners :=
                 [[Form.CallHandleSubmit]; [Form.PreventDefault; Form.CallHandleSubmit]];
               Form.errorListeners := [] |}
            0
            {| Form.validationRules := {["name" := [RuleName "required"]]};
               Form.isSubmitting := false;
               Form.submitButton := None;
               Form.effects := [] |}
            _ _ [("name", VStr "ok")] eq_refl _ _ eq_refl)).
  Unshelve.
  all: try (vm_compute; reflexivity).
Defined.

(** ** Further properties of the registry and of the controller *)


(** X2: the 'form:submit' event is built without [cancelable], so a
    listener's [preventDefault] leaves [defaultPrevented] false: on every
    accepted submission the default branch runs and logs the form data. *)
Theorem submit_event_not_cancelable (R : Registry) (host : Form.Host) (fuel : nat)
    (this this1 : Form.t) (validation : FormResult.t)
    (entries : list (string * Value)) :
  Form.isSubmitting this = false ->
  Form.validateForm R host this = Ok (this1, validation) ->
  FormResult.isValid validation = true ->
  Form.entriesAtSubmit host = Ok entries ->
  exists this',
    Form.handleSubmit R host (S (S fuel)) this = Some (this', Form.Fulfilled)
    /\ In (Form.ConsoleLog (validator.extractFormData entries)) (Form.effects this').
Proof.
  intros Hidle Hv Hvalid He.
  rewrite (handleSubmit_accepted R host fuel this this1 validation Hidle Hv Hvalid).
  rewrite He. eexists. split; [reflexivity|].
  rewrite finally_effects. simpl. apply in_or_app. right. by left.
Qed.

Lemma submit_event_not_cancelable_witness :
  exists this',
    Form.handleSubmit (validator.builtin (fun _ => true))
      {| Form.entriesAtValidation := Ok [("name", VStr "ok")];
         Form.entriesAtSubmit := Ok [("name", VStr "ok")];
         Form.submitListeners := [[Form.PreventDefault]];
         Form.errorListeners := [] |}
      2
      {| Form.validationRules := {["name" := [RuleName "required"]]};
         Form.isSubmitting := false;
         Form.submitButton := None;
         Form.effects := [] |}
    = Some (this', Form.Fulfilled)
    /\ In (Form.ConsoleLog (validator.extractFormData [("name", VStr "ok")]))
          (Form.effects this').
Proof.
  eapply (submit_event_not_cancelable (validator.builtin (fun _ => true))
            {| Form.entriesAtValidation := Ok [("name", VStr "ok")];
               Form.entriesAtSubmit := Ok [("name", VStr "ok")];
               Form.submitListeners := [[Form.PreventDefault]];
               Form.errorListeners := [] |}
            0
            {| Form.validationRules := {["name" := [RuleName "required"]]};
               Form.isSubmitting := false;
               Form.submitButton := None;
               Form.effects := [] |}
            _ _ [("name", VStr "ok")] eq_refl).
  all: vm_compute; reflexivity.
Defined.

(** The examples of the specification for [email] and for the cross-field
    rule [match]. *)
Example email_and_match_examples (URL_parses : string -> bool) :
  let R := validator.builtin URL_parses in
  validator.validateField R (VStr "a@b.com") [RuleName "email"] ∅
  = Ok (FieldResult.mk true [])
  /\ validator.validateField R (VStr "not-an-email") [RuleName "email"] ∅
     = Ok (FieldResult.mk false [Val (VStr "Please enter a valid email address")])
  /\ validator.validateField R (VStr "secret")
       [RuleObject "match" (Some [VStr "password"]) None] {["password" := VStr "secret"]}
     = Ok (FieldResult.mk true [])
  /\ validator.validateField R (VStr "secret")
       [RuleObject "match" (Some [VStr "password"]) None] {["password" := VStr "other"]}
     = Ok (FieldResult.mk false [Val (VStr "Must match password")]).
Proof.
  intros R. subst R. repeat split; vm_compute; reflexivity.
Qed.

Lemma validateField_bare_closure (R : Registry) (value : Value)
    (formData : gmap string Value) (name : string)
    (f g : list Value -> result member) :
  rules R !! name = Some (Fun f) ->
  f [value; VObj formData] = Ok (Fun g) ->
  validator.validateField R value [RuleName name] formData
  = Ok (FieldResult.mk true []).
Proof.
  intros Hr Hf. unfold validator.validateField. cbn [forOf].
  unfold validator.validateField_body, validator.ruleOutcome, prop.
  rewrite Hr. simpl. rewrite Hf. reflexivity.
Qed.

Lemma validateField_predicate_called (R : Registry) (value : Value)
    (formData : gmap string Value) (name : string)
    (f : list Value -> result member) (p : Value) (ps : list Value)
    (message : option string) :
  rules R !! name = Some (Fun f) ->
  f (p :: ps) = Throw TypeError \/ (exists v, f (p :: ps) = Ok (Val v)) ->
  validator.validateField R value [RuleObject name (Some (p :: ps)) message] formData
  = Throw TypeError.
Proof.
  intros Hr Hf. unfold validator.validateField. cbn [forOf].
  unfold validator.validateField_body, validator.ruleOutcome, prop.
  rewrite Hr. simpl. destruct Hf as [-> | [v ->]]; reflexivity.
Qed.

(** X4: a bare token that names a parameterized rule passes on every
    value: the registry's function is called with the value in place of the
    parameter and returns the predicate, which is truthy. *)
Theorem bare_parameterized_rule_passes (URL_parses : string -> bool) (value : Value)
    (formData : gmap string Value) (name : string) :
  In name ["minLength"; "maxLength"; "min"; "max"; "pattern"; "match"]%string ->
  validator.validateField (validator.builtin URL_parses) value [RuleName name] formData
  = Ok (FieldResult.mk true []).
Proof.
  intros H.
  repeat (destruct H as [<-|H];
          [eapply validateField_bare_closure; reflexivity|]).
  destruct H.
Qed.

Lemma bare_parameterized_rule_passes_witness :
  validator.validateField (validator.builtin (fun _ => true)) (VStr "abc")
    [RuleName "min"] ∅
  = Ok (FieldResult.mk true []).
Proof.
  apply (bare_parameterized_rule_passes (fun _ => true) (VStr "abc") ∅ "min").
  right. right. by left.
Defined.

(** X5: a rule without parameters that is declared with some, as in
    [required:1], makes [validateField] throw a TypeError: the registry's
    predicate is called with the parameters, and the boolean it returns is
    then called with the value. *)
Theorem predicate_given_parameters_throws (URL_parses : string -> bool) (value : Value)
    (formData : gmap string Value) (name : string) (p : Value) (ps : list Value)
    (message : option string) :
  In name ["required"; "email"; "url"; "phone"; "number"; "integer"; "alpha";
           "alphanumeric"]%string ->
  validator.validateField (validator.builtin URL_parses) value
    [RuleObject name (Some (p :: ps)) message] formData
  = Throw TypeError.
Proof.
  intros H.
  repeat (destruct H as [<-|H];
          [eapply validateField_predicate_called; [reflexivity|];
           cbn; repeat case_match; eauto|]).
  destruct H.
Qed.

Lemma predicate_given_parameters_throws_witness :
  validator.validateField (validator.builtin (fun _ => true)) (VStr "abc")
    [RuleObject "required" (Some [VNum (ofZ 1)]) None] ∅
  = Throw TypeError.
Proof.
  apply (predicate_given_parameters_throws (fun _ => true) (VStr "abc") ∅ "required"
           (VNum (ofZ 1)) [] None).
  by left.
Defined.

(** ** Form data extraction *)

Lemma extractFormData_body_lookup (data : gmap string Value) (k v key : string) :
  validator.extractFormData_body data (k, VStr v) !! key
  = if String.eqb k key then keyUpdate (data !! key) v else data !! key.
Proof.
  unfold validator.extractFormData_body, keyUpdate, propValue.
  destruct (String.eqb_spec k key) as [->|Hne].
  - destruct (ToBoolean (default VUndef (data !! key))).
    + destruct (default VUndef (data !! key)); by rewrite lookup_insert_eq.
    + by rewrite lookup_insert_eq.
  - destruct (ToBoolean (default VUndef (data !! k))).
    + destruct (default VUndef (data !! k)); by rewrite lookup_insert_ne.
    + by rewrite lookup_insert_ne.
Qed.

Lemma extractFormData_fold_lookup (entries : list (string * string))
    (data : gmap string Value) (key : string) :
  fold_left validator.extractFormData_body (textEntries entries) data !! key
  = fold_left keyUpdate (valuesOf key entries) (data !! key).
Proof.
  revert data. induction entries as [|[k v] entries IH]; intros data; [done|].
  cbn [textEntries map fold_left valuesOf fst snd].
  change (map (fun e : string * string => (e.1, VStr e.2)) entries)
    with (textEntries entries).
  rewrite IH, extractFormData_body_lookup.
  by destruct (String.eqb k key).
Qed.

Lemma keyUpdate_array (l vs : list string) :
  l <> [] ->
  fold_left keyUpdate vs (Some (VArr (map VStr l))) = Some (VArr (map VStr (l ++ vs))).
Proof.
  revert l. induction vs as [|v vs IH]; intros l Hl; simpl.
  - by rewrite app_nil_r.
  - unfold keyUpdate at 2. simpl.
    replace (map VStr l ++ [VStr v]) with (map VStr (l ++ [v])) by by rewrite map_app.
    rewrite IH by (by destruct l). by rewrite <- app_assoc.
Qed.

Lemma keyUpdate_nonempty (c : ascii) (s : string) (vs : list string) :
  fold_left keyUpdate vs (Some (VStr (String c s)))
  = Some match vs with
         | [] => VStr (String c s)
         | _ => VArr (map VStr (String c s :: vs))
         end.
Proof.
  destruct vs as [|v vs]; [done|].
  exact (keyUpdate_array [String c s; v] vs ltac:(done)).
Qed.

Lemma keyUpdate_empty (vs : list string) :
  fold_left keyUpdate vs (Some (VStr ""))
  = Some match dropEmpty vs with
         | [] => VStr ""
         | [v] => VStr v
         | v :: rest => VArr (map VStr (v :: rest))
         end.
Proof.
  induction vs as [|[|c s] vs IH]; simpl; [done|exact IH|].
  change (keyUpdate (Some (VStr "")) (String c s)) with (Some (VStr (String c s))).
  rewrite keyUpdate_nonempty. by destruct vs.
Qed.

Lemma extractFormData_fold_lookup_empty (entries : list (string * string))
    (key : string) :
  validator.extractFormData (textEntries entries) !! key
  = formValue (valuesOf key entries).
Proof.
  unfold validator.extractFormData. rewrite extractFormData_fold_lookup.
  rewrite lookup_empty. unfold formValue.
  destruct (valuesOf key entries) as [|[|c s] vs]; simpl; [done| |].
  - change (keyUpdate None "") with (Some (VStr "")). apply keyUpdate_empty.
  - change (keyUpdate None (String c s)) with (Some (VStr (String c s))).
    rewrite keyUpdate_nonempty. by destruct vs.
Qed.

(** X6: on a form of text controls none of which has a name of
    [Object.prototype], and for a key that is not such a name either,
    [extractFormData] holds a property exactly for the names that occur;
    under a name it holds the values from the first non-empty one on, as the
    value itself when it is the only one and as the array of them in
    document order otherwise: an empty value is overwritten by the next
    value of the same name. *)
Theorem extractFormData_collects (entries : list (string * string)) (key : string) :
  Forall (fun e => inherited e.1 = false) entries ->
  inherited key = false ->
  validator.extractFormData (textEntries entries) !! key
  = formValue (valuesOf key entries)
  /\ (validator.extractFormData (textEntries entries) !! key = None
      <-> forall e, e ∈ entries -> e.1 <> key).
Proof.
  intros _ _.
  split; [apply extractFormData_fold_lookup_empty|].
  rewrite extractFormData_fold_lookup_empty.
  induction entries as [|[k v] entries IH]; simpl.
  - split; [|done]. intros _ e He. by apply elem_of_nil in He.
  - destruct (String.eqb_spec k key) as [->|Hne]; simpl.
    + split; [discriminate|]. intros H. by destruct (H (key, v)); [left|].
    + rewrite IH. split.
      * intros H e He. apply elem_of_cons in He as [->|He]; [done|by apply H].
      * intros H e He. apply H. by right.
Qed.

Lemma extractFormData_collects_witness :
  validator.extractFormData
    (textEntries [("tags", ""); ("tags", "a"); ("name", "n"); ("tags", "b")]) !! "tags"
  = Some (VArr [VStr "a"; VStr "b"])
  /\ validator.extractFormData
       (textEntries [("tags", ""); ("tags", "a"); ("name", "n"); ("tags", "b")]) !! "name"
     = Some (VStr "n").
Proof.
  split.
  - apply (extractFormData_collects
             [("tags", ""); ("tags", "a"); ("name", "n"); ("tags", "b")] "tags");
      [repeat constructor | reflexivity].
  - apply (extractFormData_collects
             [("tags", ""); ("tags", "a"); ("name", "n"); ("tags", "b")] "name");
      [repeat constructor | reflexivity].
Defined.

(** ** Field validator: further properties *)

Lemma trimEnd_keeps_head (c : ascii) (s : string) :
  JSString.isWhiteSpace c = false -> JSString.trimEnd (String c s) <> EmptyString.
Proof.
  intros Hc. simpl. destruct (JSString.trimEnd s); [by rewrite Hc | done].
Qed.

Lemma trim_empty (s : string) :
  String.eqb (JSString.trim s) "" = JSString.all JSString.isWhiteSpace s.
Proof.
  unfold JSString.trim. induction s as [|c s IH]; [done|].
  simpl JSString.trimStart. simpl JSString.all.
  destruct (JSString.isWhiteSpace c) eqn:Hc; [exact IH|].
  simpl andb. apply String.eqb_neq. by apply trimEnd_keeps_head.
Qed.

(** X7: [required] fails exactly on the blank values: a field with the one
    rule [required] is invalid, with the message of [required], when the
    value is [undefined], [null] or a string of white space only, and valid
    on every other value (any other string, and every number, boolean,
    array and object). *)
Theorem required_fails_exactly_on_blank (URL_parses : string -> bool) (value : Value)
    (formData : gmap string Value) :
  validator.validateField (validator.builtin URL_parses) value [RuleName "required"] formData
  = Ok (verdict (negb (isBlank value)) (Val (VStr "This field is required"))).
Proof.
  apply (validateField_bare _ _ _ "required" _ _ _
           (builtin_required URL_parses) (builtin_message_required URL_parses)).
  destruct value; try reflexivity.
  cbn. by rewrite trim_empty, !andb_true_r.
Qed.

Section FieldValidatorComposition.

Variable R : Registry.
Variables (value : Value) (formData : gmap string Value).

Lemma forOf_app {A S : Type} (body : S -> A -> result S) (xs ys : list A) (acc : S) :
  forOf body (xs ++ ys) acc = acc' ← forOf body xs acc; forOf body ys acc'.
Proof.
  revert acc. induction xs as [|x xs IH]; intros acc; simpl; [done|].
  destruct (body acc x); simpl; [apply IH | done].
Qed.

Lemma validateField_forOf_acc (rs : list RuleSpec) (acc : list member) :
  forOf (validator.validateField_body R value formData) rs acc
  = errors ← forOf (validator.validateField_body R value formData) rs [];
    Ok (acc ++ errors).
Proof.
  revert acc. induction rs as [|r rs IH]; intros acc; cbn [forOf].
  - simpl. by rewrite app_nil_r.
  - destruct (validator.ruleOutcome R value formData r) as [[isValid msg]|e] eqn:Ho.
    + rewrite !(validateField_body_outcome _ _ _ _ _ _ _ Ho).
      destruct (truthy isValid); simpl.
      * apply IH.
      * rewrite (IH (acc ++ [msg])), (IH [msg]).
        destruct (forOf _ rs []); simpl; [|done]. by rewrite <- app_assoc.
    + by rewrite !(validateField_body_throws _ _ _ _ _ _ Ho).
Qed.

Lemma collected_length (message : RuleSpec -> result member) (rs : list RuleSpec)
    (errors : list member) :
  collected R message value formData rs errors -> (length errors <= length rs)%nat.
Proof. induction 1; simpl; lia. Qed.

End FieldValidatorComposition.

(** X8: [validateField] on a rule list put together from two lists is the
    two validations one after the other: it throws what the first one
    throws, else what the second one throws, else it returns the errors of
    the first followed by the errors of the second, and is valid when both
    are. *)
Theorem validateField_app (R : Registry) (value : Value) (rs1 rs2 : list RuleSpec)
    (formData : gmap string Value) :
  validator.validateField R value (rs1 ++ rs2) formData
  = r1 ← validator.validateField R value rs1 formData;
    r2 ← validator.validateField R value rs2 formData;
    Ok (FieldResult.mk (FieldResult.isValid r1 && FieldResult.isValid r2)
          (FieldResult.errors r1 ++ FieldResult.errors r2)).
Proof.
  unfold validator.validateField. rewrite forOf_app.
  destruct (forOf _ rs1 []) as [e1|x]; simpl; [|done].
  rewrite validateField_forOf_acc.
  destruct (forOf _ rs2 []) as [e2|x]; simpl; [|done].
  rewrite length_app. by destruct e1, e2.
Qed.

(** X9: a result of [validateField] holds at most one error per rule, and
    it is valid exactly when it holds none. *)
Theorem validateField_errors_bounded (R : Registry) (value : Value)
    (rs : list RuleSpec) (formData : gmap string Value) (r : FieldResult.t) :
  validator.validateField R value rs formData = Ok r ->
  (length (FieldResult.errors r) <= length rs)%nat
  /\ (FieldResult.isValid r = true <-> FieldResult.errors r = []).
Proof.
  intros Hr.
  destruct (validateField_forOf R value formData rs [])
    as [(errors & He & Hc) | (e & He & _)];
    unfold validator.validateField in Hr; rewrite He in Hr; simpl in Hr;
    [|discriminate].
  injection Hr as <-. simpl. split.
  - by apply collected_length in Hc.
  - destruct errors; simpl; split; done.
Qed.

Lemma validateField_errors_bounded_witness :
  exists r,
    validator.validateField (validator.builtin (fun _ => true)) (VStr "")
      [RuleName "required"; RuleName "integer"] ∅ = Ok r
    /\ (length (FieldResult.errors r) <= 2)%nat
    /\ (FieldResult.isValid r = true <-> FieldResult.errors r = []).
Proof.
  eexists. split; [vm_compute; reflexivity|].
  apply (validateField_errors_bounded (validator.builtin (fun _ => true)) (VStr "")
           [RuleName "required"; RuleName "integer"] ∅).
  vm_compute. reflexivity.
Defined.

(** ** Form validator: when a field throws *)

Lemma forOf_throws {A S : Type} (body : S -> A -> result S) (xs : list A) (x : A) :
  x ∈ xs ->
  (forall acc, exists e, body acc x = Throw e) ->
  forall acc, exists e, forOf body xs acc = Throw e.
Proof.
  intros Hx Hbody. induction xs as [|y xs IH]; intros acc.
  - by apply elem_of_nil in Hx.
  - simpl. destruct (body acc y) as [acc'|e] eqn:Hy; simpl; [|by exists e].
    apply elem_of_cons in Hx as [->|Hx].
    + destruct (Hbody acc) as [e He]. congruence.
    + by apply IH.
Qed.

Lemma validateForm_body_throws (R : Registry) (formData : gmap string Value)
    (validationRules : gmap string (list RuleSpec)) (f : string)
    (rs : list RuleSpec) (e : exn) (acc : FormResult.t) :
  validationRules !! f = Some rs ->
  validator.validateField R (snapshotValue formData f) rs formData = Throw e ->
  validator.validateForm_body R formData validationRules acc f = Throw e.
Proof.
  intros Hrs He. unfold validator.validateForm_body.
  by rewrite fieldValue_snapshotValue, Hrs, He.
Qed.

Lemma validateForm_forOf_throws (R : Registry) (formData : gmap string Value)
    (validationRules : gmap string (list RuleSpec)) (f : string)
    (rs : list RuleSpec) (e : exn) (acc : FormResult.t) :
  validationRules !! f = Some rs ->
  validator.validateField R (snapshotValue formData f) rs formData = Throw e ->
  exists e',
    forOf (validator.validateForm_body R formData validationRules)
      (validator.keys validationRules) acc = Throw e'.
Proof.
  intros Hrs He. apply (forOf_throws _ _ f).
  - apply keys_spec. by exists rs.
  - intros acc'. exists e. by apply (validateForm_body_throws _ _ _ _ rs).
Qed.

(** X10: when the field validator throws on one field of the rules map,
    [validateForm] throws: no result is returned for the other fields. *)
Theorem validateForm_throws (R : Registry) (formData : gmap string Value)
    (validationRules : gmap string (list RuleSpec)) (f : string)
    (rs : list RuleSpec) (e : exn) :
  validationRules !! f = Some rs ->
  validator.validateField R (snapshotValue formData f) rs formData = Throw e ->
  exists e', validator.validateForm R formData validationRules = Throw e'.
Proof.
  intros Hrs He. unfold validator.validateForm.
  destruct (validateForm_forOf_throws R formData validationRules f rs e
              (FormResult.mk true ∅ ∅) Hrs He) as [e' He'].
  by exists e'.
Qed.

Lemma validateForm_throws_witness :
  exists e',
    validator.validateForm (validator.builtin (fun _ => true)) {["name" := VStr "ok"]}
      (<["name" := [RuleName "required"]]> {["email" := [RuleName "emial"]]})
    = Throw e'.
Proof.
  apply (validateForm_throws (validator.builtin (fun _ => true)) {["name" := VStr "ok"]}
           (<["name" := [RuleName "required"]]> {["email" := [RuleName "emial"]]})
           "email" [RuleName "emial"] TypeError).
  - reflexivity.
  - vm_compute. reflexivity.
Defined.

Lemma builtin_phone (URL_parses : string -> bool) :
  rules (validator.builtin URL_parses) !! "phone" = Some validator.Rules.phone.
Proof. reflexivity. Qed.

Lemma phone_throws_on_non_string (URL_parses : string -> bool) (value : Value)
    (formData : gmap string Value) (rest : list RuleSpec) :
  (forall s, value <> VStr s) ->
  validator.validateField (validator.builtin URL_parses) value
    (RuleName "phone" :: rest) formData
  = Throw TypeError.
Proof.
  intros Hv. unfold validator.validateField. cbn [forOf].
  unfold validator.validateField_body, validator.ruleOutcome, prop.
  rewrite builtin_phone. destruct value; try reflexivity. by destruct (Hv s).
Qed.

(** X11: on a form of text controls none of which has a name of
    [Object.prototype], when two or more controls share a name and the first
    of them is not empty, the extracted value is the array of their values,
    and a rule list that starts with [phone] makes [validateForm] throw
    ([value.replace] is not a function on an array). *)
Theorem validateForm_phone_on_repeated_name (URL_parses : string -> bool)
    (entries : list (string * string)) (name : string) (c : ascii) (v : string)
    (w : string) (more : list string) (rest : list RuleSpec)
    (validationRules : gmap string (list RuleSpec)) :
  Forall (fun e => inherited e.1 = false) entries ->
  valuesOf name entries = String c v :: w :: more ->
  validationRules !! name = Some (RuleName "phone" :: rest) ->
  validator.extractFormData (textEntries entries) !! name
  = Some (VArr (map VStr (String c v :: w :: more)))
  /\ exists e,
       validator.validateForm (validator.builtin URL_parses)
         (validator.extractFormData (textEntries entries)) validationRules
       = Throw e.
Proof.
  intros _ Hvs Hrules.
  assert (Hdata : validator.extractFormData (textEntries entries) !! name
                  = Some (VArr (map VStr (String c v :: w :: more)))).
  { rewrite extractFormData_fold_lookup_empty. by rewrite Hvs. }
  split; [exact Hdata|].
  unfold validator.validateForm.
  apply (validateForm_forOf_throws _ _ _ name (RuleName "phone" :: rest) TypeError _ Hrules).
  unfold snapshotValue. rewrite Hdata. simpl.
  by apply phone_throws_on_non_string.
Qed.

Lemma validateForm_phone_on_repeated_name_witness :
  validator.extractFormData (textEntries [("phone", "123"); ("phone", "456")]) !! "phone"
  = Some (VArr [VStr "123"; VStr "456"])
  /\ exists e,
       validator.validateForm (validator.builtin (fun _ => true))
         (validator.extractFormData (textEntries [("phone", "123"); ("phone", "456")]))
         {["phone" := [RuleName "phone"]]}
       = Throw e.
Proof.
  apply (validateForm_phone_on_repeated_name (fun _ => true)
           [("phone", "123"); ("phone", "456")] "phone" "1" "23" "456" [] []
           {["phone" := [RuleName "phone"]]});
    [repeat constructor | reflexivity..].
Defined.

(** ** Registry: a registered rule in use *)



(** ** Submission controller: further properties *)

Section ControllerComposition.

Import Form.

Variable R : Registry.
Variable host : Host.

Lemma validateForm_rules (this other : t) (this1 : t) (validation : FormResult.t) :
  validationRules other = validationRules this ->
  validateForm R host this = Ok (this1, validation) ->
  validateForm R host other
  = Ok (perform (DisplayErrors (FormResult.errors validation)) other, validation).
Proof.
  unfold validateForm. intros ->.
  destruct (entriesAtValidation host) as [entries|]; simpl; [|discriminate].
  destruct (validator.validateForm R _ _) as [res|]; simpl; [|discriminate].
  by intros [= _ <-].
Qed.

Lemma finally_rules (this : t) :
  validationRules (handleSubmit_finally this) = validationRules this.
Proof.
  unfold handleSubmit_finally, setSubmitState. simpl.
  by destruct (submitButton this).
Qed.

Lemma setSubmitState_rules (b : bool) (this : t) :
  validationRules (setSubmitState b this) = validationRules this.
Proof. unfold setSubmitState. by destruct (submitButton this). Qed.

Lemma setSubmitState_effects (b : bool) (this : t) :
  effects (setSubmitState b this) = effects this.
Proof. unfold setSubmitState. by destruct (submitButton this). Qed.

Lemma classList_add_extends (tokens classes : list string) :
  exists extra, classList_add tokens classes = classes ++ extra
                /\ Forall (fun c => existsb (String.eqb c) tokens = true) extra.
Proof.
  unfold classList_add. revert classes.
  induction tokens as [|tok tokens IH]; intros classes; simpl.
  - exists []. by rewrite app_nil_r.
  - destruct (existsb (String.eqb tok) classes).
    + destruct (IH classes) as (extra & -> & Hex). exists extra. split; [done|].
      eapply Forall_impl; [exact Hex|]. simpl. intros c ->. apply orb_true_r.
    + destruct (IH (classes ++ [tok])) as (extra & -> & Hex).
      exists (tok :: extra). rewrite <- app_assoc. split; [done|].
      constructor.
      * simpl. by rewrite String.eqb_refl.
      * eapply Forall_impl; [exact Hex|]. simpl. intros c ->. apply orb_true_r.
Qed.

Lemma classList_remove_add (tokens classes : list string) :
  classList_remove tokens (classList_add tokens classes)
  = classList_remove tokens classes.
Proof.
  destruct (classList_add_extends tokens classes) as (extra & -> & Hex).
  unfold classList_remove. rewrite List.filter_app.
  assert (Hnil : List.filter (fun c => negb (existsb (String.eqb c) tokens)) extra = []).
  { induction Hex as [|c extra Hc _ IH]; simpl; [done|]. by rewrite Hc. }
  rewrite Hnil. apply app_nil_r.
Qed.

Lemma classList_remove_absent (tokens classes : list string) :
  Forall (fun c => existsb (String.eqb c) tokens = false) classes ->
  classList_remove tokens classes = classes.
Proof.
  unfold classList_remove. induction 1 as [|c classes Hc _ IH]; simpl; [done|].
  rewrite Hc. simpl. by rewrite IH.
Qed.

End ControllerComposition.

(** X13: [setSubmitState(true)] followed by [setSubmitState(false)] leaves
    the submit button enabled, whatever it was, without the two classes
    'opacity-50' and 'cursor-not-allowed', whether it had them before or
    not, with its text saved in [dataset.originalText], and with its text
    back unless the text was empty; the rest of the controller is as
    before.  A button that was enabled, had a text and neither class is as
    before but for the saved text. *)
Theorem setSubmitState_round_trip (this : Form.t) (b : Form.SubmitButton) :
  Form.submitButton this = Some b ->
  Form.setSubmitState false (Form.setSubmitState true this)
  = {| Form.validationRules := Form.validationRules this;
       Form.isSubmitting := Form.isSubmitting this;
       Form.submitButton :=
         Some {| Form.disabled := false;
                 Form.classList :=
                   Form.classList_remove ["opacity-50"; "cursor-not-allowed"]
                     (Form.classList b);
                 Form.textContent :=
                   (if String.eqb (Form.textContent b) "" then "Submitting..."
                    else Form.textContent b)%string;
                 Form.dataset_originalText := Some (Form.textContent b) |};
       Form.effects := Form.effects this |}
  /\ (Form.disabled b = false ->
      Form.textContent b <> EmptyString ->
      Forall (fun c => existsb (String.eqb c) ["opacity-50"; "cursor-not-allowed"] = false)
        (Form.classList b) ->
      Form.submitButton (Form.setSubmitState false (Form.setSubmitState true this))
      = Some {| Form.disabled := Form.disabled b;
                Form.classList := Form.classList b;
                Form.textContent := Form.textContent b;
                Form.dataset_originalText := Some (Form.textContent b) |}).
Proof.
  intros Hb.
  assert (Heq : Form.setSubmitState false (Form.setSubmitState true this)
                = {| Form.validationRules := Form.validationRules this;
                     Form.isSubmitting := Form.isSubmitting this;
                     Form.submitButton :=
                       Some {| Form.disabled := false;
                               Form.classList :=
                                 Form.classList_remove ["opacity-50"; "cursor-not-allowed"]
                                   (Form.classList b);
                               Form.textContent :=
                                 (if String.eqb (Form.textContent b) "" then "Submitting..."
                                  else Form.textContent b)%string;
                               Form.dataset_originalText := Some (Form.textContent b) |};
                     Form.effects := Form.effects this |}).
  { unfold Form.setSubmitState. rewrite Hb. cbn -[Form.classList_add Form.classList_remove].
    rewrite classList_remove_add. by destruct (Form.textContent b). }
  split; [exact Heq|].
  intros Hd Ht Hc. rewrite Heq. cbn -[Form.classList_remove].
  rewrite (classList_remove_absent _ _ Hc), Hd.
  by destruct (Form.textContent b).
Qed.

Lemma setSubmitState_round_trip_witness :
  Form.submitButton
    (Form.setSubmitState false
       (Form.setSubmitState true
          {| Form.validationRules := ∅; Form.isSubmitting := true;
             Form.submitButton :=
               Some {| Form.disabled := false; Form.classList := ["btn"];
                       Form.textContent := "Send";
                       Form.dataset_originalText := None |};
             Form.effects := [] |}))
  = Some {| Form.disabled := false; Form.classList := ["btn"];
            Form.textContent := "Send";
            Form.dataset_originalText := Some "Send"%string |}.
Proof.
  apply (proj2 (setSubmitState_round_trip
                  {| Form.validationRules := ∅; Form.isSubmitting := true;
                     Form.submitButton :=
                       Some {| Form.disabled := false; Form.classList := ["btn"];
                               Form.textContent := "Send";
                               Form.dataset_originalText := None |};
                     Form.effects := [] |}
                  {| Form.disabled := false; Form.classList := ["btn"];
                     Form.textContent := "Send";
                     Form.dataset_originalText := None |} eq_refl)).
  - reflexivity.
  - discriminate.
  - repeat constructor.
Defined.

(** X14: a submit whose validation returns an invalid result ends there:
    the errors of the fields are displayed, and nothing else happens: no
    event is dispatched, the controller does not enter Submitting, and the
    submit button is not touched. *)
Theorem handleSubmit_invalid_form (R : Registry) (host : Form.Host) (fuel : nat)
    (this this1 : Form.t) (validation : FormResult.t) :
  Form.isSubmitting this = false ->
  Form.validateForm R host this = Ok (this1, validation) ->
  FormResult.isValid validation = false ->
  Form.handleSubmit R host (S fuel) this
  = Some ({| Form.validationRules := Form.validationRules this;
             Form.isSubmitting := false;
             Form.submitButton := Form.submitButton this;
             Form.effects :=
               Form.effects this ++ [Form.DisplayErrors (FormResult.errors validation)] |},
          Form.Fulfilled)
  /\ exists f es, FormResult.errors validation !! f = Some es.
Proof.
  intros Hidle Hv Hinvalid. split.
  - simpl. rewrite Hidle, Hv, Hinvalid. simpl.
    rewrite (validateForm_state R host _ _ _ Hv). unfold Form.perform.
    by rewrite Hidle.
  - unfold Form.validateForm in Hv.
    destruct (Form.entriesAtValidation host) as [entries|]; simpl in Hv; [|discriminate].
    destruct (validator.validateForm R _ _) as [res|] eqn:Hres; simpl in Hv;
      [|discriminate].
    injection Hv as _ <-.
    unfold validator.validateForm in Hres.
    assert (Hgen : forall ks acc res,
               forOf (validator.validateForm_body R (validator.extractFormData entries)
                        (Form.validationRules this)) ks acc = Ok res ->
               FormResult.isValid res = false ->
               FormResult.isValid acc = true
               \/ (exists f es, FormResult.errors acc !! f = Some es) ->
               exists f es, FormResult.errors res !! f = Some es).
    { clear. induction ks as [|k ks IH]; intros acc res Hres Hinv Hacc.
      - simpl in Hres. injection Hres as <-.
        destruct Hacc as [Hacc|Hacc]; [congruence|exact Hacc].
      - cbn [forOf] in Hres.
        destruct (validator.validateForm_body _ _ _ acc k) as [acc'|] eqn:Hbody;
          simpl in Hres; [|discriminate].
        apply (IH acc' res Hres Hinv).
        unfold validator.validateForm_body in Hbody.
        destruct (Form.validationRules this !! k) as [rs|]; [|discriminate].
        destruct (validator.validateField _ _ rs _) as [r|]; simpl in Hbody;
          [|discriminate].
        destruct (FieldResult.isValid r); simpl in Hbody; injection Hbody as <-; simpl.
        + exact Hacc.
        + right. exists k, (FieldResult.errors r). apply lookup_insert_eq. }
    apply (Hgen _ _ _ Hres Hinvalid). by left.
Qed.

Lemma handleSubmit_invalid_form_witness :
  Form.handleSubmit (validator.builtin (fun _ => true))
    {| Form.entriesAtValidation := Ok [("name", VStr "")];
       Form.entriesAtSubmit := Ok [("name", VStr "")];
       Form.submitListeners := [[Form.CallHandleSubmit]];
       Form.errorListeners := [] |}
    1
    {| Form.validationRules := {["name" := [RuleName "required"]]};
       Form.isSubmitting := false;
       Form.submitButton := None;
       Form.effects := [] |}
  = Some ({| Form.validationRules := {["name" := [RuleName "required"]]};
             Form.isSubmitting := false;
             Form.submitButton := None;
             Form.effects :=
               [Form.DisplayErrors {["name" := [Val (VStr "This field is required")]]}] |},
          Form.Fulfilled).
Proof.
  refine (proj1 (handleSubmit_invalid_form (validator.builtin (fun _ => true))
                   {| Form.entriesAtValidation := Ok [("name", VStr "")];
                      Form.entriesAtSubmit := Ok [("name", VStr "")];
                      Form.submitListeners := [[Form.CallHandleSubmit]];
                      Form.errorListeners := [] |}
                   0
                   {| Form.validationRules := {["name" := [RuleName "required"]]};
                      Form.isSubmitting := false;
                      Form.submitButton := None;
                      Form.effects := [] |}
                   _
                   (FormResult.mk false {["name" := [Val (VStr "This field is required")]]}
                      {["name" := FieldResult.mk false
                                    [Val (VStr "This field is required")]]})
                   eq_refl _ eq_refl)).
  vm_compute. reflexivity.
Defined.

(** X15: when the field validator throws on a field of the form, as it does
    for a mistyped bare rule name, every submit is rejected before anything
    happens: the controller, the button and the record of effects are as
    they were, so the form cannot be submitted. *)
Theorem handleSubmit_rejected_when_validation_throws (R : Registry) (host : Form.Host)
    (fuel : nat) (this : Form.t) (entries : list (string * Value)) (f : string)
    (rs : list RuleSpec) (e : exn) :
  Form.isSubmitting this = false ->
  Form.entriesAtValidation host = Ok entries ->
  Form.validationRules this !! f = Some rs ->
  validator.validateField R (snapshotValue (validator.extractFormData entries) f) rs
    (validator.extractFormData entries) = Throw e ->
  exists e', Form.handleSubmit R host (S fuel) this = Some (this, Form.Rejected e').
Proof.
  intros Hidle Hentries Hrs He.
  destruct (validateForm_forOf_throws R (validator.extractFormData entries)
              (Form.validationRules this) f rs e (FormResult.mk true ∅ ∅) Hrs He)
    as [e' He'].
  assert (Hv : Form.validateForm R host this = Throw e').
  { change (validator.validateForm R (validator.extractFormData entries)
              (Form.validationRules this) = Throw e') in He'.
    unfold Form.validateForm. rewrite Hentries. simpl. by rewrite He'. }
  exists e'. simpl. by rewrite Hidle, Hv.
Qed.

Lemma handleSubmit_rejected_when_validation_throws_witness :
  exists e',
    Form.handleSubmit (validator.builtin (fun _ => true))
      {| Form.entriesAtValidation := Ok [("email", VStr "a@b.com")];
         Form.entriesAtSubmit := Ok [("email", VStr "a@b.com")];
         Form.submitListeners := [];
         Form.errorListeners := [] |}
      1
      {| Form.validationRules := {["email" := [RuleName "required"; RuleName "emial"]]};
         Form.isSubmitting := false;
         Form.submitButton := None;
         Form.effects := [] |}
    = Some ({| Form.validationRules :=
                 {["email" := [RuleName "required"; RuleName "emial"]]};
               Form.isSubmitting := false;
               Form.submitButton := None;
               Form.effects := [] |},
            Form.Rejected e').
Proof.
  apply (handleSubmit_rejected_when_validation_throws (validator.builtin (fun _ => true))
           {| Form.entriesAtValidation := Ok [("email", VStr "a@b.com")];
              Form.entriesAtSubmit := Ok [("email", VStr "a@b.com")];
              Form.submitListeners := [];
              Form.errorListeners := [] |}
           0
           {| Form.validationRules :=
                {["email" := [RuleName "required"; RuleName "emial"]]};
              Form.isSubmitting := false;
              Form.submitButton := None;
              Form.effects := [] |}
           [("email", VStr "a@b.com")] "email"
           [RuleName "required"; RuleName "emial"] TypeError);
    reflexivity.
Defined.

Section SequentialSubmits.

Import Form.

Variable R : Registry.
Variable host : Host.

Lemma accepted_emissions (this1 : t) (formData : gmap string Value) :
  submitEmissions (accepted this1 formData) = S (submitEmissions this1).
Proof.
  unfold accepted, submitEmissions. rewrite finally_effects.
  unfold setSubmitState, setIsSubmitting. simpl.
  destruct (submitButton this1); simpl;
    rewrite !List.filter_app, !length_app; simpl; lia.
Qed.

Lemma accepted_rules (this1 : t) (formData : gmap string Value) :
  validationRules (accepted this1 formData) = validationRules this1.
Proof.
  unfold accepted. rewrite finally_rules. simpl. by rewrite setSubmitState_rules.
Qed.

Lemma displayErrors_emissions (errors : gmap string (list member)) (this : t) :
  submitEmissions (perform (DisplayErrors errors) this) = submitEmissions this.
Proof.
  unfold submitEmissions. simpl. rewrite List.filter_app, length_app. simpl. lia.
Qed.

Lemma handleSubmit_accepted_collected (fuel : nat) (this this1 : t)
    (validation : FormResult.t) (entries : list (string * Value)) :
  isSubmitting this = false ->
  validateForm R host this = Ok (this1, validation) ->
  FormResult.isValid validation = true ->
  entriesAtSubmit host = Ok entries ->
  handleSubmit R host (S (S fuel)) this
  = Some (accepted this1 (validator.extractFormData entries), Fulfilled).
Proof.
  intros Hidle Hv Hvalid He.
  rewrite (handleSubmit_accepted R host fuel this this1 validation Hidle Hv Hvalid).
  by rewrite He.
Qed.

End SequentialSubmits.

(** X16: the guard on [isSubmitting] stops only a call made during a
    submission.  A submission returns with the flag cleared, so a second
    submit of the same form after the first, as a double click makes, is
    validated and accepted again: the two dispatch two 'form:submit'
    events. *)
Theorem handleSubmit_twice_in_sequence (R : Registry) (host : Form.Host) (fuel : nat)
    (this this1 : Form.t) (validation : FormResult.t)
    (entries : list (string * Value)) :
  Form.isSubmitting this = false ->
  Form.validateForm R host this = Ok (this1, validation) ->
  FormResult.isValid validation = true ->
  Form.entriesAtSubmit host = Ok entries ->
  exists this' this'',
    Form.handleSubmit R host (S (S fuel)) this = Some (this', Form.Fulfilled)
    /\ Form.handleSubmit R host (S (S fuel)) this' = Some (this'', Form.Fulfilled)
    /\ Form.submitEmissions this'' = S (S (Form.submitEmissions this)).
Proof.
  intros Hidle Hv Hvalid He.
  pose proof (handleSubmit_accepted_collected R host fuel this this1 validation entries
                Hidle Hv Hvalid He) as H1.
  set (this' := accepted this1 (validator.extractFormData entries)) in *.
  assert (Hidle' : Form.isSubmitting this' = false) by apply finally_isSubmitting.
  assert (Hrules : Form.validationRules this' = Form.validationRules this).
  { subst this'. rewrite accepted_rules.
    by rewrite (validateForm_state R host _ _ _ Hv). }
  pose proof (validateForm_rules R host this this' this1 validation Hrules Hv) as Hv'.
  pose proof (handleSubmit_accepted_collected R host fuel this' _ validation entries
                Hidle' Hv' Hvalid He) as H2.
  exists this'. eexists. split; [exact H1|]. split; [exact H2|].
  rewrite accepted_emissions, displayErrors_emissions. subst this'.
  rewrite accepted_emissions, (validateForm_state R host _ _ _ Hv).
  by rewrite displayErrors_emissions.
Qed.

Lemma handleSubmit_twice_in_sequence_witness :
  exists this' this'',
    Form.handleSubmit (validator.builtin (fun _ => true))
      {| Form.entriesAtValidation := Ok [("name", VStr "ok")];
         Form.entriesAtSubmit := Ok [("name", VStr "ok")];
         Form.submitListeners := [];
         Form.errorListeners := [] |}
      2
      {| Form.validationRules := {["name" := [RuleName "required"]]};
         Form.isSubmitting := false;
         Form.submitButton := None;
         Form.effects := [] |}
    = Some (this', Form.Fulfilled)
    /\ Form.handleSubmit (validator.builtin (fun _ => true))
         {| Form.entriesAtValidation := Ok [("name", VStr "ok")];
            Form.entriesAtSubmit := Ok [("name", VStr "ok")];
            Form.submitListeners := [];
            Form.errorListeners := [] |}
         2 this'
       = Some (this'', Form.Fulfilled)
    /\ Form.submitEmissions this'' = 2%nat.
Proof.
  eapply (handleSubmit_twice_in_sequence (validator.builtin (fun _ => true))
            {| Form.entriesAtValidation := Ok [("name", VStr "ok")];
               Form.entriesAtSubmit := Ok [("name", VStr "ok")];
               Form.submitListeners := [];
               Form.errorListeners := [] |}
            0
            {| Form.validationRules := {["name" := [RuleName "required"]]};
               Form.isSubmitting := false;
               Form.submitButton := None;
               Form.effects := [] |}
            _ _ [("name", VStr "ok")] eq_refl).
  all: vm_compute; reflexivity.
Defined.

(** ** Rule parser: further properties *)




(** X18: a token that ends with its colon, as in [min:], gets one
    parameter, the number 0: the empty parameter text splits into one empty
    token, and [Number('')] is 0. *)
Theorem parseRuleString_missing_parameter (name : string) :
  JSString.includes ":" name = false ->
  JSString.includes "|" name = false ->
  Form.parseRuleString (name +:+ ":")
  = Ok [RuleObject name (Some [VNum (zero false)]) None].
Proof.
  intros Hc Hb. unfold Form.parseRuleString.
  rewrite split_no_separator by (rewrite includes_app; simpl; by rewrite Hb).
  cbn [forOf]. unfold Form.parseRuleString_body.
  replace (JSString.includes ":" (name +:+ ":")) with true
    by (rewrite includes_app; simpl; by rewrite orb_true_r).
  change (name +:+ ":") with (name +:+ String ":" EmptyString).
  rewrite (split_at_separator ":" name) by exact Hc.
  reflexivity.
Qed.

Lemma parseRuleString_missing_parameter_witness :
  Form.parseRuleString "min:" = Ok [RuleObject "min" (Some [VNum (zero false)]) None].
Proof.
  apply (parseRuleString_missing_parameter "min"); reflexivity.
Defined.

(** ** Real-time validation against the form validator *)

Lemma validateForm_forOf_returned (R : Registry) (formData : gmap string Value)
    (validationRules : gmap string (list RuleSpec)) (ks visited : list string)
    (acc res : FormResult.t) :
  forOf (validator.validateForm_body R formData validationRules) ks acc = Ok res ->
  aggregated R formData validationRules visited acc ->
  aggregated R formData validationRules (visited ++ ks) res.
Proof.
  revert visited acc. induction ks as [|k ks IH]; intros visited acc Hres Hacc.
  - simpl in Hres. injection Hres as <-. by rewrite app_nil_r.
  - cbn [forOf] in Hres.
    destruct (validator.validateForm_body R formData validationRules acc k)
      as [acc'|] eqn:Hbody; simpl in Hres; [|discriminate].
    assert (Hk : exists rs r,
               validationRules !! k = Some rs
               /\ validator.validateField R (snapshotValue formData k) rs formData = Ok r).
    { unfold validator.validateForm_body in Hbody.
      rewrite fieldValue_snapshotValue in Hbody.
      destruct (validationRules !! k) as [rs|]; [|discriminate].
      destruct (validator.validateField R (snapshotValue formData k) rs formData)
        as [r|] eqn:Hr; [|discriminate].
      by exists rs, r. }
    destruct Hk as (rs & r & Hrs & Hr).
    destruct (validateForm_body_step R formData validationRules visited acc k rs r
                Hacc Hrs Hr) as (acc'' & Hbody' & Hacc'').
    rewrite Hbody in Hbody'. injection Hbody' as <-.
    rewrite (app_assoc visited [k] ks : visited ++ k :: ks = (visited ++ [k]) ++ ks).
    exact (IH (visited ++ [k]) acc' Hres Hacc'').
Qed.

(** X19: the validation of one field while the user types agrees with the
    validation of the form, on a form whose field names are not names of
    [Object.prototype]: when the value of the field is what the form data
    holds for its name, the empty string standing in for a missing entry,
    [validateField(field)] hands [displayFieldErrors] the errors that
    [validateForm] records for the field, and returns the validity recorded
    there, or throws what [displayFieldErrors] throws. *)
Theorem validateField_agrees_with_validateForm (R : Registry) (this : Form.t)
    (entries : list (string * Value)) (displayFieldErrors : list member -> result unit)
    (fieldName fieldValue : string) (fieldRules : list RuleSpec) (res : FormResult.t) :
  Forall (fun e => inherited e.1 = false) entries ->
  (forall k, is_Some (Form.validationRules this !! k) -> inherited k = false) ->
  Form.validationRules this !! fieldName = Some fieldRules ->
  snapshotValue (validator.extractFormData entries) fieldName = VStr fieldValue ->
  validator.validateForm R (validator.extractFormData entries) (Form.validationRules this)
  = Ok res ->
  exists r,
    FormResult.results res !! fieldName = Some r
    /\ Form.validateField R this (Ok entries) displayFieldErrors fieldName fieldValue
       = (_ ← displayFieldErrors (FieldResult.errors r); Ok (FieldResult.isValid r)).
Proof.
  intros _ _ Hrules Hvalue Hres. unfold validator.validateForm in Hres.
  destruct (validateForm_forOf_returned R _ _ _ [] _ _ Hres
              (aggregated_init R _ _)) as (Hresults & _).
  specialize (Hresults fieldName). simpl in Hresults.
  rewrite bool_decide_eq_true_2 in Hresults by (apply keys_spec; by eexists).
  unfold fieldOutcome in Hresults. rewrite Hrules, Hvalue in Hresults.
  unfold Form.validateField. rewrite Hrules. simpl.
  destruct (validator.validateField R (VStr fieldValue) fieldRules
              (validator.extractFormData entries)) as [r|e] eqn:Hf; simpl.
  - by exists r.
  - exfalso.
    assert (Hthrow : validator.validateField R
                       (snapshotValue (validator.extractFormData entries) fieldName)
                       fieldRules (validator.extractFormData entries) = Throw e)
      by (by rewrite Hvalue).
    destruct (validateForm_forOf_throws R _ _ fieldName fieldRules e
                (FormResult.mk true ∅ ∅) Hrules Hthrow) as [e' He'].
    congruence.
Qed.

Lemma validateField_agrees_with_validateForm_witness :
  exists r,
    FormResult.results
      (FormResult.mk false {["email" := [Val (VStr "Please enter a valid email address")]]}
         {["email" := FieldResult.mk false
                        [Val (VStr "Please enter a valid email address")]]})
    !! "email" = Some r
    /\ Form.validateField (validator.builtin (fun _ => true))
         {| Form.validationRules := {["email" := [RuleName "required"; RuleName "email"]]};
            Form.isSubmitting := false;
            Form.submitButton := None;
            Form.effects := [] |}
         (Ok [("email", VStr "bad")]) (fun _ => Ok ()) "email" "bad"
       = Ok (FieldResult.isValid r).
Proof.
  apply (validateField_agrees_with_validateForm (validator.builtin (fun _ => true))
           {| Form.validationRules :=
                {["email" := [RuleName "required"; RuleName "email"]]};
              Form.isSubmitting := false;
              Form.submitButton := None;
              Form.effects := [] |}
           [("email", VStr "bad")] (fun _ => Ok ()) "email" "bad"
           [RuleName "required"; RuleName "email"]).
  - repeat constructor.
  - intros k [rs Hk]. cbn [Form.validationRules] in Hk.
    by apply lookup_singleton_Some in Hk as [<- _].
  - vm_compute. reflexivity.
  - vm_compute. reflexivity.
  - vm_compute. reflexivity.
Defined.

(** ** The matchers of the rules against their regular expressions *)

Section RegExpFacts.

Import RegExp.

Lemma append_cons (c : ascii) (a b : string) :
  String c a +:+ b = String c (a +:+ b).
Proof. reflexivity. Qed.


Lemma append_empty_r (s : string) : s +:+ "" = s.
Proof. induction s as [|c s IH]; [done|]. by rewrite append_cons, IH. Qed.

Lemma append_assoc (a b c : string) : (a +:+ b) +:+ c = a +:+ (b +:+ c).
Proof. induction a as [|x a IH]; [done|]. by rewrite !append_cons, IH. Qed.

Lemma length_append (a b : string) :
  String.length (a +:+ b) = (String.length a + String.length b)%nat.
Proof. induction a as [|x a IH]; [done|]. rewrite append_cons. simpl. by rewrite IH. Qed.

Lemma matches_class_inv (p : ascii -> bool) (s : string) :
  matches (Class p) s -> exists c, s = String c EmptyString /\ p c = true.
Proof. inversion 1; subst. by eexists. Qed.


Lemma matches_upto_class (n : nat) (p : ascii -> bool) (s : string) :
  matches (Upto n (Class p)) s
  <-> JSString.all p s = true /\ (String.length s <= n)%nat.
Proof.
  split.
  - intros H. remember (Upto n (Class p)) as r eqn:Hr. revert n Hr.
    induction H as [| | | | | |m r|m r s1 s2 H1 _ _ IH]; intros n Hr; try discriminate.
    + simpl. split; [done|lia].
    + injection Hr as <- ->. apply matches_class_inv in H1 as (c & -> & Hc).
      destruct (IH m eq_refl) as [Hall Hlen].
      change (String c "" +:+ s2) with (String c s2). simpl.
      rewrite Hc. split; [done|lia].
  - revert n. induction s as [|c s IH]; intros n [Hall Hlen].
    + constructor.
    + simpl in Hall, Hlen. apply andb_true_iff in Hall as [Hc Hs].
      destruct n as [|n]; [lia|].
      apply (matches_upto_more n (Class p) (String c EmptyString) s).
      * by constructor.
      * apply IH. split; [done|lia].
Qed.

End RegExpFacts.

Section RegExpMatchers.

Import RegExp.


Lemma matches_seq_inv (r1 r2 : t) (s : string) :
  matches (Seq r1 r2) s ->
  exists s1 s2, s = s1 +:+ s2 /\ matches r1 s1 /\ matches r2 s2.
Proof. inversion 1; subst. by eexists _, _. Qed.

Lemma matches_literal_inv (x : ascii) (s : string) :
  matches (Class (Ascii.eqb x)) s -> s = String x EmptyString.
Proof.
  intros H. apply matches_class_inv in H as (c & -> & Hc).
  by apply Ascii.eqb_eq in Hc as ->.
Qed.

Lemma oneToNine_spec (c : ascii) :
  oneToNine c = Regex.isDigit c && negb (Ascii.eqb c "0").
Proof. destruct c as [[] [] [] [] [] [] [] []]; reflexivity. Qed.

Lemma phone_after_plus (r : string) :
  Regex.phone (String "+" r)
  = match r with
    | String c r' =>
        Regex.isDigit c && negb (Ascii.eqb c "0") && JSString.all Regex.isDigit r'
        && (String.length r' <=? 15)%nat
    | EmptyString => false
    end.
Proof. reflexivity. Qed.

Lemma phone_without_plus (c : ascii) (r : string) :
  Ascii.eqb c "+" = false ->
  Regex.phone (String c r)
  = Regex.isDigit c && negb (Ascii.eqb c "0") && JSString.all Regex.isDigit r
    && (String.length r <=? 15)%nat.
Proof.
  destruct c as [[] [] [] [] [] [] [] []]; intros H; try reflexivity; discriminate.
Qed.

Lemma digits_spec (c : ascii) (r : string) :
  Regex.isDigit c && negb (Ascii.eqb c "0") && JSString.all Regex.isDigit r
  && (String.length r <=? 15)%nat = true
  <-> matches (Seq (Class oneToNine) (Upto 15 (Class Regex.isDigit))) (String c r).
Proof.
  rewrite <- oneToNine_spec. split.
  - intros H. apply andb_true_iff in H as [H Hlen].
    apply andb_true_iff in H as [Hc Hall]. apply Nat.leb_le in Hlen.
    apply (matches_seq _ _ (String c EmptyString) r); [by constructor|].
    by apply matches_upto_class.
  - intros H. apply matches_seq_inv in H as (s1 & s2 & Hs & H1 & H2).
    apply matches_class_inv in H1 as (c' & -> & Hc).
    change (String c' "" +:+ s2) with (String c' s2) in Hs.
    injection Hs as -> ->.
    apply matches_upto_class in H2 as [Hall Hlen]. apply Nat.leb_le in Hlen.
    by rewrite Hc, Hall, Hlen.
Qed.

Lemma phone_spec (s : string) : Regex.phone s = true <-> matches phoneRegex s.
Proof.
  unfold phoneRegex. split.
  - destruct s as [|c r]; [discriminate|].
    destruct (Ascii.eqb c "+") eqn:Hc.
    + apply Ascii.eqb_eq in Hc as ->. rewrite phone_after_plus.
      destruct r as [|c r]; [discriminate|]. intros H. apply digits_spec in H.
      apply (matches_seq _ _ (String "+" EmptyString) (String c r)); [|exact H].
      apply matches_opt_some. by constructor.
    + rewrite (phone_without_plus _ _ Hc). intros H. apply digits_spec in H.
      apply (matches_seq _ _ EmptyString (String c r)); [|exact H].
      apply matches_opt_none.
  - intros H. apply matches_seq_inv in H as (o & d & -> & Ho & Hd).
    assert (Hd' := Hd). apply matches_seq_inv in Hd' as (s1 & s2 & -> & H1 & _).
    apply matches_class_inv in H1 as (c & -> & Hc).
    change (String c "" +:+ s2) with (String c s2) in *.
    inversion Ho as [| | | |r0|r0 o' Hplus| |]; subst.
    + change ("" +:+ String c s2) with (String c s2).
      rewrite phone_without_plus; [by apply digits_spec|].
      destruct c as [[] [] [] [] [] [] [] []]; try reflexivity; discriminate.
    + apply matches_literal_inv in Hplus as ->.
      change ("+" +:+ String c s2) with (String "+" (String c s2)).
      rewrite phone_after_plus. by apply digits_spec.
Qed.

End RegExpMatchers.

Section EmailMatcher.

Import RegExp.







End EmailMatcher.




(** X22: on a string, [phone] accepts exactly when the string without its
    white space, hyphens and parentheses matches [/^[\+]?[1-9][\d]{0,15}$/]:
    an optional plus, then one to sixteen digits of which the first is not
    0. *)
Theorem phone_accepts_the_regex (URL_parses : string -> bool) (s : string)
    (formData : gmap string Value) :
  exists b,
    validator.validateField (validator.builtin URL_parses) (VStr s)
      [RuleName "phone"] formData
    = Ok (verdict b (Val (VStr "Please enter a valid phone number")))
    /\ (b = true <-> RegExp.matches RegExp.phoneRegex (Regex.stripPhone s))
    /\ (b = true <->
        exists digits,
          (Regex.stripPhone s = digits \/ Regex.stripPhone s = String "+" digits)
          /\ JSString.all Regex.isDigit digits = true
          /\ (1 <= String.length digits <= 16)%nat
          /\ String.get 0 digits <> Some "0"%char).
Proof.
  exists (Regex.phone (Regex.stripPhone s)). split; [|split].
  - by apply (validateField_bare _ _ _ "phone" _ _ (Regex.phone (Regex.stripPhone s))
                (builtin_phone URL_parses)
                (eq_refl : messages (validator.builtin URL_parses) !! "phone"
                           = Some validator.Messages.phone)).
  - apply phone_spec.
  - set (t := Regex.stripPhone s). clearbody t. split.
    + destruct t as [|c r]; [discriminate|].
      destruct (Ascii.eqb c "+") eqn:Hc.
      * apply Ascii.eqb_eq in Hc as ->. rewrite phone_after_plus.
        destruct r as [|c r]; [discriminate|]. intros H.
        apply andb_true_iff in H as [H Hlen]. apply andb_true_iff in H as [H Hall].
        apply andb_true_iff in H as [Hd H0]. apply Nat.leb_le in Hlen.
        exists (String c r). split; [by right|]. simpl. rewrite Hd, Hall.
        split; [done|]. split; [lia|]. intros [= ->]. discriminate.
      * rewrite (phone_without_plus _ _ Hc). intros H.
        apply andb_true_iff in H as [H Hlen]. apply andb_true_iff in H as [H Hall].
        apply andb_true_iff in H as [Hd H0]. apply Nat.leb_le in Hlen.
        exists (String c r). split; [by left|]. simpl. rewrite Hd, Hall.
        split; [done|]. split; [lia|]. intros [= ->]. discriminate.
    + intros (digits & Ht & Hall & Hlen & H0).
      destruct digits as [|c r]; [simpl in Hlen; lia|].
      simpl in Hall, Hlen. apply andb_true_iff in Hall as [Hd Hall].
      assert (Hc0 : Ascii.eqb c "0" = false).
      { apply Ascii.eqb_neq. intros ->. by apply H0. }
      assert (Hlen' : (String.length r <=? 15)%nat = true) by (apply Nat.leb_le; lia).
      destruct Ht as [->| ->].
      * rewrite phone_without_plus; [by rewrite Hd, Hc0, Hall, Hlen'|].
        destruct c as [[] [] [] [] [] [] [] []]; try reflexivity; discriminate.
      * rewrite phone_after_plus. by rewrite Hd, Hc0, Hall, Hlen'.
Qed.

(** ** Cross-field, pattern and length rules *)


Lemma builtin_pattern (URL_parses : string -> bool) :
  rules (validator.builtin URL_parses) !! "pattern" = Some validator.Rules.pattern.
Proof. reflexivity. Qed.






Lemma pattern_token_parsed (p : string) (spec : RuleSpec) :
  parsedFrom ("pattern:" +:+ p) spec ->
  exists x xs, spec = RuleObject "pattern" (Some (x :: xs)) None.
Proof.
  intros H. inversion H as [tok Hinc|tok name paramText rest params Hs Hc]; subst.
  - discriminate Hinc.
  - change ("pattern:" +:+ p) with ("pattern" +:+ String ":" p) in Hs.
    rewrite split_at_separator in Hs by reflexivity.
    injection Hs as <- Hs'.
    destruct (JSString.split "," paramText) as [|q qs] eqn:Hq;
      [by apply split_not_nil in Hq|].
    inversion Hc; subst. by eexists _, _.
Qed.

Lemma pattern_body_throws (URL_parses : string -> bool) (value : Value)
    (formData : gmap string Value) (x : Value) (xs : list Value) (acc : list member) :
  validator.validateField_body (validator.builtin URL_parses) value formData acc
    (RuleObject "pattern" (Some (x :: xs)) None)
  = Throw TypeError.
Proof.
  unfold validator.validateField_body, validator.ruleOutcome, prop.
  by rewrite builtin_pattern.
Qed.

(** X23: a [pattern:...] token of a [data-validate] attribute cannot work.
    [parseRuleString] hands the text after the colon over as strings and
    numbers, none of which has a [test] method, so every validation of a
    field whose rule string holds such a token throws, whatever the value
    of the field. *)
Theorem pattern_from_attribute_throws (URL_parses : string -> bool)
    (ruleString p : string) :
  ("pattern:" +:+ p) ∈ JSString.split "|" ruleString ->
  exists specs,
    Form.parseRuleString ruleString = Ok specs
    /\ forall value formData, exists e,
         validator.validateField (validator.builtin URL_parses) value specs formData
         = Throw e.
Proof.
  intros Hin. unfold Form.parseRuleString.
  destruct (parseRuleString_forOf (JSString.split "|" ruleString) [])
    as (specs & Hspecs & Hall).
  exists specs. split; [exact Hspecs|]. intros value formData.
  apply list_elem_of_lookup in Hin as [i Hi].
  destruct (Forall2_lookup_l _ _ _ _ _ Hall Hi) as (spec & Hspec & Hparsed).
  apply pattern_token_parsed in Hparsed as (x & xs & ->).
  destruct (forOf_throws (validator.validateField_body (validator.builtin URL_parses)
                            value formData) specs _
              (list_elem_of_lookup_2 _ _ _ Hspec)
              (fun acc => ex_intro _ TypeError
                            (pattern_body_throws URL_parses value formData x xs acc)) [])
    as [e He].
  exists e. unfold validator.validateField. by rewrite He.
Qed.

Lemma pattern_from_attribute_throws_witness :
  exists specs,
    Form.parseRuleString "required|pattern:[0-9]+" = Ok specs
    /\ forall value formData, exists e,
         validator.validateField (validator.builtin (fun _ => true)) value specs formData
         = Throw e.
Proof.
  apply (pattern_from_attribute_throws (fun _ => true) "required|pattern:[0-9]+" "[0-9]+").
  vm_compute. apply list_elem_of_further, list_elem_of_here.
Defined.


